(** * Write-Audit-Publish on an Iceberg table: [wap_etl.py]

    A shallow embedding of [src/wap_etl.py].  The Spark session and the
    Iceberg catalog behind it are external to the repository; they are
    modelled as an explicit world (the catalog with its tables, table
    properties and branch refs, the log of operations sent to the catalog,
    standard output, the number of UUIDs drawn) threaded through a small
    state-and-exception monad.  Every remote call may raise: an environment
    decides, for each call site of [wap_append], whether the call fails. *)

From Stdlib Require Import ZArith List String Bool Lia.
From stdpp Require Import gmap strings list fin_maps.
Import ListNotations.

Local Open Scope string_scope.
Local Open Scope Z_scope.
Local Open Scope list_scope.

(** ** Rows and DataFrames *)

(** A row of the table created by [setup_glue_iceberg_table]:
    [(id INT, name STRING, age INT)]. *)
Record Row := mkRow { id : Z; name : string; age : Z }.

Global Instance Row_eq_dec : EqDecision Row.
Proof. solve_decision. Defined.

(** [read_data]: the sample DataFrame. *)
Definition read_data : list Row :=
  [ mkRow 1 "Alice" 28; mkRow 2 "Bob" 34; mkRow 3 "Charlie" 23 ].

(** [transform]: [df.filter(df.age > 25)]. *)
Definition transform (df : list Row) : list Row :=
  List.filter (fun r => 25 <? age r) df.

(** ** The catalog *)

(** A version of the table is the chain of append commits that leads to it,
    oldest first; the rows visible at a version are those of all commits. *)
Definition rows_of (v : list (list Row)) : list Row := concat v.

(** [is_ancestor a b]: version [a] lies on the history of version [b]. *)
Fixpoint is_ancestor (a b : list (list Row)) : bool :=
  match a, b with
  | [], _ => true
  | _ :: _, [] => false
  | x :: a', y :: b' =>
      if decide (x = y) then is_ancestor a' b' else false
  end.

Record Table := mkTable {
  tblproperties : gmap string string;
  refs : gmap string (list (list Row))
}.

(** The operations the program sends to the catalog, as written in the
    source: the SQL statements of [spark.sql] and the DataFrame reads and
    writes. *)
Inductive CatalogOp :=
| SqlSetTblProperty (tbl key value : string)
| SqlSelectRefs (tbl : string)
| SqlDropBranchIfExists (tbl branch : string)
| SqlCreateBranch (tbl branch : string)
| SqlDropBranch (tbl branch : string)
| SqlCallFastForward (catalog tbl target source : string)
| SqlUnsetTblProperty (tbl key : string)
| DfAppend (tbl branch : string) (rows : list Row)
| DfLoad (tbl branch : string)
| DfCount (tbl branch : string).

(** The call sites of [wap_append], in source order. *)
Inductive Step :=
| AtSetProperty      (* line 75 *)
| AtShowRefs         (* line 79 *)
| AtDropIfExists     (* line 83 *)
| AtCreateBranch     (* line 84 *)
| AtWrite            (* lines 85-89 *)
| AtLoad             (* lines 100-103 *)
| AtCountBranch1     (* line 104, left operand *)
| AtCountData        (* line 104, right operand *)
| AtCountBranch2     (* line 105 *)
| AtFastForward      (* line 113 *)
| AtDropBranch       (* line 123 *)
| AtUnsetProperty.   (* line 139 *)

Global Instance Step_eq_dec : EqDecision Step.
Proof. solve_decision. Defined.

(** What standard output receives: [print] lines and [.show()] tables. *)
Inductive Output :=
| Printed (line : string)
| Shown (ref_names : list string).

(** A Python exception as the caller catches it: its class and its
    [__context__], the exception that was being handled (or was propagating
    through a [finally] block) when it was raised, if there was one. *)
Inductive PyExn := Exn (cls : string) (context : option PyExn).

Definition exn_class (e : PyExn) : string :=
  match e with Exn cls _ => cls end.

(** The exceptions down the [__context__] chain of [e]: its [__context__],
    the [__context__] of that one, and so on. *)
Fixpoint context_chain (e : PyExn) : list PyExn :=
  match e with
  | Exn _ c =>
      match c with
      | Some e' => e' :: context_chain e'
      | None => []
      end
  end.

Fixpoint chain_length (e : PyExn) : nat :=
  match e with
  | Exn _ c =>
      match c with
      | Some e' => S (chain_length e')
      | None => 0
      end
  end.

(** The error of a JVM call as PySpark hands it to the caller.  The call
    raises a [Py4JJavaError]; PySpark's handler around every JVM call
    ([capture_sql_exception]) re-raises it as it is when it does not know
    the Java exception, and otherwise raises an exception of a class of its
    own ([AnalysisException] and the like) from inside the handler, so that
    the [Py4JJavaError] is the [__context__] of the exception raised.
    [cls] is the class of the exception the caller gets. *)
Definition spark_error (cls : string) : PyExn :=
  if decide (cls = "Py4JJavaError") then Exn cls None
  else Exn cls (Some (Exn "Py4JJavaError" None)).

(** The environment of a run.
    - [resolve] maps a table identifier as written in a statement to the
      table it denotes (Spark resolves identifiers against the session's
      current catalog and namespace);
    - [fault st] is the class of the exception that the remote call at
      call site [st] raises, if the service fails there;
    - [uuid4_hex n] is the hexadecimal form of the [n]-th UUID drawn. *)
Record Env := mkEnv {
  resolve : string -> string;
  fault : Step -> option string;
  uuid4_hex : nat -> string
}.

Record World := mkWorld {
  catalog : gmap string Table;
  issued : list CatalogOp;
  stdout : list Output;
  uuids_drawn : nat
}.

(** ** The state-and-exception monad *)

Inductive Outcome (A : Type) :=
| Returned (a : A)
| Raised (e : PyExn).
Arguments Returned {A} a.
Arguments Raised {A} e.

Definition M (A : Type) : Type := World -> Outcome A * World.

Definition ret {A} (a : A) : M A := fun w => (Returned a, w).

Definition raise {A} (e : PyExn) : M A := fun w => (Raised e, w).

Definition bind {A B} (m : M A) (k : A -> M B) : M B := fun w =>
  match m w with
  | (Returned a, w') => k a w'
  | (Raised e, w') => (Raised e, w')
  end.

Notation "'let*' x ':=' m 'in' k" := (bind m (fun x => k))
  (at level 10, x name, m at level 100, k at level 200).
Notation "m '>>' k" := (bind m (fun _ => k))
  (at level 90, right associativity).

(** [try: body / except Exception as e: handler e]. *)
Definition try_except {A} (body : M A) (handler : PyExn -> M A) : M A :=
  fun w =>
    match body w with
    | (Returned a, w') => (Returned a, w')
    | (Raised e, w') => handler e w'
    end.

(** The exception [e2], raised by a block that ran while [e1] was in
    flight.  Python sets the [__context__] of an exception when it is
    raised, to the exception being handled at that moment: the first
    exception raised in the block, the last of [e2]'s own chain, gets [e1];
    an exception raised later, in a handler inside the block, has the
    exception handled there as its [__context__].  So [e1] goes to the end
    of [e2]'s chain. *)
Fixpoint raised_during (e2 e1 : PyExn) : PyExn :=
  match e2 with
  | Exn cls c =>
      Exn cls (Some match c with
                    | Some e => raised_during e e1
                    | None => e1
                    end)
  end.

(** [try: body / finally: final].  The [finally] block always runs; when it
    raises, its exception is the one that propagates, and the exception of
    the body, if it raised, is to be found down the [__context__] chain of
    it. *)
Definition try_finally {A} (body : M A) (final : M unit) : M A :=
  fun w =>
    match body w with
    | (r, w1) =>
        match final w1 with
        | (Returned _, w2) => (r, w2)
        | (Raised e2, w2) =>
            (Raised match r with
                    | Raised e1 => raised_during e2 e1
                    | Returned _ => e2
                    end, w2)
        end
    end.

(** ** Primitive effects *)

Definition log_op (op : CatalogOp) (w : World) : World :=
  mkWorld (catalog w) (issued w ++ [op]) (stdout w) (uuids_drawn w).

Definition emit (o : Output) : M unit := fun w =>
  (Returned tt, mkWorld (catalog w) (issued w) (stdout w ++ [o]) (uuids_drawn w)).

(** [print(line)]. *)
Definition print (line : string) : M unit := emit (Printed line).

(** A remote call at call site [st]: the operation is sent, and either the
    service fails (nothing changes) or the operation takes effect. *)
Definition remote {A} (E : Env) (st : Step) (op : CatalogOp) (act : M A) : M A :=
  fun w =>
    let w1 := log_op op w in
    match fault E st with
    | Some cls => (Raised (spark_error cls), w1)
    | None => act w1
    end.

Definition get_table (E : Env) (tbl : string) : M Table := fun w =>
  match catalog w !! resolve E tbl with
  | Some t => (Returned t, w)
  | None => (Raised (spark_error "NoSuchTableException"), w)
  end.

Definition put_table (E : Env) (tbl : string) (t : Table) : M unit := fun w =>
  (Returned tt,
   mkWorld (<[resolve E tbl := t]> (catalog w)) (issued w) (stdout w) (uuids_drawn w)).

Definition get_ref (t : Table) (branch : string) : M (list (list Row)) :=
  match refs t !! branch with
  | Some v => ret v
  | None => raise (spark_error "NoSuchBranchException")
  end.

(** ** Catalog operations *)

(** [ALTER TABLE tbl SET TBLPROPERTIES ('key'='value')]. *)
Definition sql_set_tblproperty (E : Env) (st : Step) (tbl key value : string) : M unit :=
  remote E st (SqlSetTblProperty tbl key value)
    (let* t := get_table E tbl in
     put_table E tbl (mkTable (<[key := value]> (tblproperties t)) (refs t))).

(** [ALTER TABLE tbl UNSET TBLPROPERTIES ('key')]: no error when absent. *)
Definition sql_unset_tblproperty (E : Env) (st : Step) (tbl key : string) : M unit :=
  remote E st (SqlUnsetTblProperty tbl key)
    (let* t := get_table E tbl in
     put_table E tbl (mkTable (delete key (tblproperties t)) (refs t))).

(** [SELECT * FROM tbl.refs]: the names of the table's refs. *)
Definition sql_select_refs (E : Env) (st : Step) (tbl : string) : M (list string) :=
  remote E st (SqlSelectRefs tbl)
    (let* t := get_table E tbl in
     ret ((map_to_list (refs t)).*1)).

(** [.show()] of a result. *)
Definition show (names : list string) : M unit := emit (Shown names).

(** [ALTER TABLE tbl DROP BRANCH IF EXISTS branch]. *)
Definition sql_drop_branch_if_exists (E : Env) (st : Step) (tbl branch : string) : M unit :=
  remote E st (SqlDropBranchIfExists tbl branch)
    (let* t := get_table E tbl in
     put_table E tbl (mkTable (tblproperties t) (delete branch (refs t)))).

(** [ALTER TABLE tbl CREATE BRANCH branch]: the new branch points at the
    table's current version, the head of [main]; the statement fails when
    the branch exists already, and when there is no [main] to branch off. *)
Definition sql_create_branch (E : Env) (st : Step) (tbl branch : string) : M unit :=
  remote E st (SqlCreateBranch tbl branch)
    (let* t := get_table E tbl in
     match refs t !! branch with
     | Some _ => raise (spark_error "BranchAlreadyExistsException")
     | None =>
         let* v := get_ref t "main" in
         put_table E tbl (mkTable (tblproperties t) (<[branch := v]> (refs t)))
     end).

(** [ALTER TABLE tbl DROP BRANCH branch]: fails when the branch is absent. *)
Definition sql_drop_branch (E : Env) (st : Step) (tbl branch : string) : M unit :=
  remote E st (SqlDropBranch tbl branch)
    (let* t := get_table E tbl in
     let* _ := get_ref t branch in
     put_table E tbl (mkTable (tblproperties t) (delete branch (refs t)))).

(** [CALL catalog.system.fast_forward('tbl', 'target', 'source')]: moves
    [target] to the version of [source], provided [target] is an ancestor of
    [source]; one atomic update of the table. *)
Definition sql_call_fast_forward (E : Env) (st : Step)
    (catalog_name tbl target source : string) : M unit :=
  remote E st (SqlCallFastForward catalog_name tbl target source)
    (let* t := get_table E tbl in
     let* vt := get_ref t target in
     let* vs := get_ref t source in
     if is_ancestor vt vs
     then put_table E tbl (mkTable (tblproperties t) (<[target := vs]> (refs t)))
     else raise (spark_error "NotFastForwardException")).

(** [df.write.format("iceberg").mode("append").option("branch", branch)
    .save(path=tbl)]: one new commit on [branch] holding the rows of [df]. *)
Definition df_write_append (E : Env) (st : Step) (df : list Row)
    (branch tbl : string) : M unit :=
  remote E st (DfAppend tbl branch df)
    (let* t := get_table E tbl in
     let* v := get_ref t branch in
     put_table E tbl (mkTable (tblproperties t) (<[branch := v ++ [df]]> (refs t)))).

(** A DataFrame that scans a branch of a table; it is lazy, and reads the
    branch each time an action runs on it. *)
Record BranchScan := mkScan { scan_tbl : string; scan_branch : string }.

(** [spark.read.format("iceberg").option("branch", branch).load(path=tbl)]. *)
Definition spark_read_load (E : Env) (st : Step) (branch tbl : string) : M BranchScan :=
  remote E st (DfLoad tbl branch)
    (let* t := get_table E tbl in
     let* _ := get_ref t branch in
     ret (mkScan tbl branch)).

(** [branch_df.count()]. *)
Definition scan_count (E : Env) (st : Step) (df : BranchScan) : M nat :=
  remote E st (DfCount (scan_tbl df) (scan_branch df))
    (let* t := get_table E (scan_tbl df) in
     let* v := get_ref t (scan_branch df) in
     ret (length (rows_of v))).

(** [data_df.count()]: an action on the caller's DataFrame; it does not
    touch the catalog, and may fail like any Spark job. *)
Definition df_count (E : Env) (st : Step) (df : list Row) : M nat := fun w =>
  match fault E st with
  | Some cls => (Raised (spark_error cls), w)
  | None => (Returned (length df), w)
  end.

(** ** The program *)

(** [uuid.uuid4().hex]. *)
Definition uuid4 (E : Env) : M string := fun w =>
  (Returned (uuid4_hex E (uuids_drawn w)),
   mkWorld (catalog w) (issued w) (stdout w) (S (uuids_drawn w))).

(** [generate_branch_name]: [f"{prefix}_{uuid.uuid4().hex[:6]}"]. *)
Definition generate_branch_name (E : Env) (prefix : string) : M string :=
  let* hex := uuid4 E in
  ret (prefix +:+ "_" +:+ substring 0 6 hex).

Definition wap_enabled_key : string := "write.wap.enabled".
Definition msg_passed : string := "Audit passed. Publishing changes.".
Definition msg_failed : string := "Audit failed. Not publishing changes.".

(** [f"{catalog_name}.{database_name}.{table_name}"] (line 65). *)
Definition full_table_name_of (catalog_name database_name table_name : string) : string :=
  catalog_name +:+ "." +:+ database_name +:+ "." +:+ table_name.

Section WapAppend.
Variable E : Env.
Variables catalog_name database_name table_name : string.
Variable data_df : list Row.

Let full_table_name := full_table_name_of catalog_name database_name table_name.

(** Lines 75-84: enable WAP, list the refs, make the audit branch. *)
Definition wap_branch_off : M string :=
  sql_set_tblproperty E AtSetProperty full_table_name wap_enabled_key "true" >>
  (let* names := sql_select_refs E AtShowRefs full_table_name in show names) >>
  let* audit_branch_name := generate_branch_name E "audit_branch" in
  sql_drop_branch_if_exists E AtDropIfExists table_name audit_branch_name >>
  sql_create_branch E AtCreateBranch table_name audit_branch_name >>
  ret audit_branch_name.

(** "WAP: Write", lines 68-89. *)
Definition wap_write : M string :=
  let* audit_branch_name := wap_branch_off in
  df_write_append E AtWrite data_df audit_branch_name table_name >>
  ret audit_branch_name.

(** "WAP: Audit", lines 91-106; the result is [audit_passed]. *)
Definition wap_audit (audit_branch_name : string) : M bool :=
  let* branch_df := spark_read_load E AtLoad audit_branch_name table_name in
  let* n1 := scan_count E AtCountBranch1 branch_df in
  let* n2 := df_count E AtCountData data_df in
  let audit_case_1 := Nat.eqb n1 n2 in
  let* n3 := scan_count E AtCountBranch2 branch_df in
  let audit_case_2 := Nat.ltb 0 n3 in
  ret (audit_case_1 && audit_case_2).

(** "WAP: Publish", lines 109-123. *)
Definition wap_publish (audit_branch_name : string) : M unit :=
  print msg_passed >>
  sql_call_fast_forward E AtFastForward catalog_name table_name "main" audit_branch_name >>
  sql_drop_branch E AtDropBranch table_name audit_branch_name.

(** "WAP: Don't publish", lines 125-130. *)
Definition wap_dont_publish : M unit :=
  print msg_failed.

(** The [try] block, lines 67-130. *)
Definition wap_try : M unit :=
  let* audit_branch_name := wap_write in
  let* audit_passed := wap_audit audit_branch_name in
  if audit_passed : bool
  then wap_publish audit_branch_name
  else wap_dont_publish.

(** "Cleanup", the [finally] block, lines 136-139. *)
Definition wap_cleanup : M unit :=
  sql_unset_tblproperty E AtUnsetProperty table_name wap_enabled_key.

(** [wap_append]; it returns [None]. *)
Definition wap_append : M unit :=
  try_finally (try_except wap_try (fun e => raise e)) wap_cleanup.
End WapAppend.

(** ** Observations on a world *)

(** The refs of the table stored under identifier [tid], if it exists. *)
Definition refs_at (w : World) (tid : string) : option (gmap string (list (list Row))) :=
  refs <$> (catalog w !! tid).

(** The version branch [b] of the table named [tbl] points at. *)
Definition branch_version (E : Env) (w : World) (tbl b : string)
    : option (list (list Row)) :=
  match refs_at w (resolve E tbl) with
  | Some rs => rs !! b
  | None => None
  end.

(** The value of property [key] of the table named [tbl]. *)
Definition property (E : Env) (w : World) (tbl key : string) : option string :=
  match catalog w !! resolve E tbl with
  | Some t => tblproperties t !! key
  | None => None
  end.

(** The branch name the next call of [generate_branch_name] yields. *)
Definition next_branch_name (E : Env) (w : World) (prefix : string) : string :=
  prefix +:+ "_" +:+ substring 0 6 (uuid4_hex E (uuids_drawn w)).

(** The operations of the [try] block in source order, for audit branch
    [b]; a run sends a prefix of them, then the cleanup. *)
Definition try_ops (catalog_name database_name table_name : string)
    (data_df : list Row) (b : string) : list CatalogOp :=
  let full_table_name := full_table_name_of catalog_name database_name table_name in
  [ SqlSetTblProperty full_table_name wap_enabled_key "true";
    SqlSelectRefs full_table_name;
    SqlDropBranchIfExists table_name b;
    SqlCreateBranch table_name b;
    DfAppend table_name b data_df;
    DfLoad table_name b;
    DfCount table_name b;
    DfCount table_name b;
    SqlCallFastForward catalog_name table_name "main" b;
    SqlDropBranch table_name b ].

Definition is_create_branch (op : CatalogOp) : bool :=
  match op with SqlCreateBranch _ _ => true | _ => false end.

Definition count_ops (p : CatalogOp -> bool) (ops : list CatalogOp) : nat :=
  length (List.filter p ops).

(** ** Example sessions *)

Definition no_fault : Step -> option string := fun _ => None.

Definition fail_at (st : Step) (cls : string) : Step -> option string :=
  fun s => if decide (s = st) then Some cls else None.

Definition fail_at2 (st1 : Step) (cls1 : string) (st2 : Step) (cls2 : string)
    : Step -> option string :=
  fun s => if decide (s = st1) then Some cls1
           else if decide (s = st2) then Some cls2 else None.

Definition has_dot (s : string) : bool :=
  match index 0 "." s with Some _ => true | None => false end.

(** Identifier resolution in a session whose current namespace is [ns]: a
    bare table name is qualified with it. *)
Definition qualify (ns ident : string) : string :=
  if has_dot ident then ident else ns +:+ "." +:+ ident.

Definition session (faults : Step -> option string) : Env :=
  mkEnv (qualify "glue_catalog.athena_iceberg_test") faults
        (fun _ => "3f2a9c0de1b24c7f8a6b5d4e3c2b1a09").

(** The table of [main], with [base] as the version of its [main] branch. *)
Definition iceberg_table (base : list (list Row)) : Table :=
  mkTable {[ "table_type" := "ICEBERG" ]} {[ "main" := base ]}.

Definition world_of (base : list (list Row)) : World :=
  mkWorld {[ "glue_catalog.athena_iceberg_test.my_iceberg_table" := iceberg_table base ]}
          [] [] 0.

(** A call of [wap_append] on the table of [main], named by its bare name
    in a session whose current namespace is the table's.  ([main] itself
    passes the qualified name as [table_name], line 182, so that line 75
    names [catalog.database.catalog.database.table]; what an identifier
    denotes is the session's business, hence [resolve].) *)
Definition run (faults : Step -> option string) (data_df : list Row)
    (base : list (list Row)) : Outcome unit * World :=
  wap_append (session faults) "glue_catalog" "athena_iceberg_test" "my_iceberg_table"
             data_df (world_of base).

Definition zed : Row := mkRow 9 "Zed" 40.

(** A catalog with a table of the same name in two databases. *)
Definition world_two_databases : World :=
  mkWorld {[ "glue_catalog.athena_iceberg_test.my_iceberg_table" := iceberg_table [];
             "glue_catalog.staging.my_iceberg_table" := iceberg_table [] ]}
          [] [] 0.

(** A table on which a branch of the name the next run draws is left over,
    at a version [main] never had. *)
Definition world_stale_branch : World :=
  mkWorld {[ "glue_catalog.athena_iceberg_test.my_iceberg_table" :=
               mkTable {[ "table_type" := "ICEBERG" ]}
                       {[ "main" := []; "audit_branch_3f2a9c" := [[zed]] ]} ]}
          [] [] 0.

(** ** What each operation does to the world *)

(** The part of the world outside the catalog: from [w] to [w'] the
    operation log gains [ops], standard output gains [outs], and [n] UUIDs
    are drawn. *)
Definition delta (ops : list CatalogOp) (outs : list Output) (n : nat)
    (w w' : World) : Prop :=
  issued w' = issued w ++ ops /\ stdout w' = stdout w ++ outs /\
  uuids_drawn w' = (n + uuids_drawn w)%nat.

(** A bound on what a stretch of a run sends: at most [c] [CREATE BRANCH]
    statements among the operations sent, at most [k] UUIDs drawn. *)
Definition quota (c k : nat) (w w' : World) : Prop :=
  exists ops, issued w' = issued w ++ ops /\
              (count_ops is_create_branch ops <= c)%nat /\
              (uuids_drawn w' <= k + uuids_drawn w)%nat.

(** ** What a run may change *)

(** The properties of the table stored under [tid], and the version of its
    branch [b]. *)
Definition props_at (w : World) (tid : string) : option (gmap string string) :=
  tblproperties <$> (catalog w !! tid).

Definition branch_at (w : World) (tid b : string) : option (list (list Row)) :=
  match refs_at w tid with
  | Some rs => rs !! b
  | None => None
  end.

(** [frame touched tid0 allowed w w']: from [w] to [w'] only the tables in
    [touched] may differ at all; no table gains, loses or changes a property
    other than ['write.wap.enabled']; and no branch moves, appears or
    disappears except the branches in [allowed] of table [tid0]. *)
Definition frame (touched : list string) (tid0 : string) (allowed : list string)
    (w w' : World) : Prop :=
  (forall tid, tid ∉ touched -> catalog w' !! tid = catalog w !! tid) /\
  (forall tid, delete wap_enabled_key <$> props_at w' tid =
               delete wap_enabled_key <$> props_at w tid) /\
  (forall tid b, (tid = tid0 -> b ∉ allowed) ->
                 branch_at w' tid b = branch_at w tid b).

(** ** The session *)

(** [conf_list] of [create_iceberg_glue_session], lines 7-17. *)
Definition conf_list (warehouse_bucket catalog_name : string) : list (string * string) :=
  [ ("spark.sql.session.timeZone", "UTC");
    ("spark.sql.extensions",
     "org.apache.iceberg.spark.extensions.IcebergSparkSessionExtensions");
    ("spark.sql.catalog." +:+ catalog_name, "org.apache.iceberg.spark.SparkCatalog");
    ("spark.sql.catalog." +:+ catalog_name +:+ ".warehouse",
     "s3://" +:+ warehouse_bucket +:+ "/" +:+ catalog_name +:+ "/");
    ("spark.sql.catalog." +:+ catalog_name +:+ ".catalog-impl",
     "org.apache.iceberg.aws.glue.GlueCatalog");
    ("spark.sql.catalog." +:+ catalog_name +:+ ".io-impl",
     "org.apache.iceberg.aws.s3.S3FileIO");
    ("spark.sql.catalog." +:+ catalog_name +:+ ".glue.skip-name-validation", "true");
    ("spark.sql.iceberg.handle-timestamp-without-timezone", "true");
    ("spark.sql.sources.partitionOverwriteMode", "dynamic") ].

(** [for key, value in conf_list: sc._conf.set(key, value)], lines 20-21,
    on the configuration [conf] of the context that
    [SparkContext.getOrCreate()] hands out. *)
Definition set_all (settings : list (string * string)) (conf : gmap string string)
    : gmap string string :=
  foldl (fun c kv => <[kv.1 := kv.2]> c) conf settings.

(** [create_iceberg_glue_session]: the Glue context and the Spark session
    it returns are both built on the one Spark context, which is modelled
    by its configuration. *)
Definition create_iceberg_glue_session (warehouse_bucket catalog_name : string)
    (conf : gmap string string) : gmap string string :=
  set_all (conf_list warehouse_bucket catalog_name) conf.

(** The payload of [main]: Charlie, aged 23, is filtered out. *)
Example transform_read_data :
  transform read_data = [ mkRow 1 "Alice" 28; mkRow 2 "Bob" 34 ].
Proof. reflexivity. Qed.

Lemma delta_refl w : delta [] [] 0 w w.
Proof. unfold delta. by rewrite !app_nil_r. Qed.

Lemma delta_trans ops1 outs1 n1 ops2 outs2 n2 w w1 w2 :
  delta ops1 outs1 n1 w w1 -> delta ops2 outs2 n2 w1 w2 ->
  delta (ops1 ++ ops2) (outs1 ++ outs2) (n2 + n1) w w2.
Proof.
  unfold delta. intros (-> & -> & ->) (-> & -> & ->).
  rewrite <- !app_assoc. split_and!; [done | done | lia].
Qed.

Ltac unfold_ops :=
  unfold sql_set_tblproperty, sql_unset_tblproperty, sql_select_refs,
    sql_drop_branch_if_exists, sql_create_branch, sql_drop_branch,
    sql_call_fast_forward, df_write_append, spark_read_load, scan_count,
    df_count, show, print, emit, generate_branch_name, uuid4,
    remote, bind, get_table, put_table, get_ref, ret, raise, log_op in *.

Ltac run_op :=
  intros; unfold_ops; unfold delta, refs_at, next_branch_name;
  repeat case_match; simplify_eq/=; rewrite ?app_nil_r; eauto 10.

Ltac table_known :=
  match goal with H : catalog _ !! _ = Some _ |- _ => rewrite H end.

Section Operations.
Context (E : Env).

(** Table properties. *)

Lemma sql_set_tblproperty_delta st tbl key value w r w' :
  sql_set_tblproperty E st tbl key value w = (r, w') ->
  delta [SqlSetTblProperty tbl key value] [] 0 w w'.
Proof. run_op. Qed.

Lemma sql_set_tblproperty_refs st tbl key value w r w' tid :
  sql_set_tblproperty E st tbl key value w = (r, w') ->
  refs_at w' tid = refs_at w tid.
Proof.
  run_op.
  destruct (decide (resolve E tbl = tid)) as [<-|]; simplify_map_eq; done.
Qed.

Lemma sql_unset_tblproperty_delta st tbl key w r w' :
  sql_unset_tblproperty E st tbl key w = (r, w') ->
  delta [SqlUnsetTblProperty tbl key] [] 0 w w'.
Proof. run_op. Qed.

Lemma sql_unset_tblproperty_refs st tbl key w r w' tid :
  sql_unset_tblproperty E st tbl key w = (r, w') ->
  refs_at w' tid = refs_at w tid.
Proof.
  run_op.
  destruct (decide (resolve E tbl = tid)) as [<-|]; simplify_map_eq; done.
Qed.

Lemma sql_unset_tblproperty_unsets st tbl key w w' :
  sql_unset_tblproperty E st tbl key w = (Returned tt, w') ->
  property E w' tbl key = None.
Proof. run_op. unfold property. simplify_map_eq. done. Qed.

Lemma sql_unset_tblproperty_outcome st tbl key w r w' :
  sql_unset_tblproperty E st tbl key w = (r, w') ->
  r = match fault E st with
      | Some cls => Raised (spark_error cls)
      | None => match catalog w !! resolve E tbl with
                | Some _ => Returned tt
                | None => Raised (spark_error "NoSuchTableException")
                end
      end.
Proof. run_op. Qed.

(** Reads and local effects: the catalog stays. *)

Lemma sql_select_refs_delta st tbl w r w' :
  sql_select_refs E st tbl w = (r, w') ->
  delta [SqlSelectRefs tbl] [] 0 w w' /\ catalog w' = catalog w.
Proof. run_op. Qed.

Lemma show_delta names w r w' :
  show names w = (r, w') ->
  r = Returned tt /\ delta [] [Shown names] 0 w w' /\ catalog w' = catalog w.
Proof. run_op. Qed.

Lemma print_delta line w r w' :
  print line w = (r, w') ->
  r = Returned tt /\ delta [] [Printed line] 0 w w' /\ catalog w' = catalog w.
Proof. run_op. Qed.

Lemma generate_branch_name_delta prefix w r w' :
  generate_branch_name E prefix w = (r, w') ->
  r = Returned (next_branch_name E w prefix) /\ delta [] [] 1 w w' /\
  catalog w' = catalog w.
Proof. run_op. Qed.

Lemma spark_read_load_delta st b tbl w r w' :
  spark_read_load E st b tbl w = (r, w') ->
  delta [DfLoad tbl b] [] 0 w w' /\ catalog w' = catalog w /\
  forall df, r = Returned df -> df = mkScan tbl b.
Proof. run_op. all: split_and!; eauto; congruence. Qed.

Lemma scan_count_delta st df w r w' :
  scan_count E st df w = (r, w') ->
  delta [DfCount (scan_tbl df) (scan_branch df)] [] 0 w w' /\
  catalog w' = catalog w.
Proof. run_op. Qed.

Lemma scan_count_returned st df w n w' :
  scan_count E st df w = (Returned n, w') ->
  exists v, branch_version E w (scan_tbl df) (scan_branch df) = Some v /\
            n = length (rows_of v).
Proof.
  run_op. unfold branch_version, refs_at. eexists. table_known. simpl. eauto.
Qed.

Lemma df_count_same st df w r w' :
  df_count E st df w = (r, w') ->
  w' = w /\ forall n, r = Returned n -> n = length df.
Proof. run_op. all: split; congruence. Qed.

(** Operations on the branches of the table named [tbl]. *)

Lemma sql_drop_branch_if_exists_delta st tbl b w r w' :
  sql_drop_branch_if_exists E st tbl b w = (r, w') ->
  delta [SqlDropBranchIfExists tbl b] [] 0 w w'.
Proof. run_op. Qed.

Lemma sql_drop_branch_if_exists_returned st tbl b w w' :
  sql_drop_branch_if_exists E st tbl b w = (Returned tt, w') ->
  exists rs, refs_at w (resolve E tbl) = Some rs /\
             refs_at w' (resolve E tbl) = Some (delete b rs).
Proof. run_op. eexists; split; [by table_known | by simplify_map_eq]. Qed.

Lemma sql_create_branch_delta st tbl b w r w' :
  sql_create_branch E st tbl b w = (r, w') ->
  delta [SqlCreateBranch tbl b] [] 0 w w'.
Proof. run_op. Qed.

Lemma sql_create_branch_returned st tbl b w w' :
  sql_create_branch E st tbl b w = (Returned tt, w') ->
  exists rs v, refs_at w (resolve E tbl) = Some rs /\ rs !! "main" = Some v /\
               refs_at w' (resolve E tbl) = Some (<[b := v]> rs).
Proof.
  run_op. do 2 eexists; split_and!; [by table_known | done | by simplify_map_eq].
Qed.

Lemma df_write_append_delta st df b tbl w r w' :
  df_write_append E st df b tbl w = (r, w') ->
  delta [DfAppend tbl b df] [] 0 w w'.
Proof. run_op. Qed.

Lemma df_write_append_returned st df b tbl w w' :
  df_write_append E st df b tbl w = (Returned tt, w') ->
  exists rs v, refs_at w (resolve E tbl) = Some rs /\ rs !! b = Some v /\
               refs_at w' (resolve E tbl) = Some (<[b := v ++ [df]]> rs).
Proof.
  run_op. do 2 eexists; split_and!; [by table_known | done | by simplify_map_eq].
Qed.

Lemma sql_call_fast_forward_delta st cat tbl target source w r w' :
  sql_call_fast_forward E st cat tbl target source w = (r, w') ->
  delta [SqlCallFastForward cat tbl target source] [] 0 w w'.
Proof. run_op. Qed.

Lemma sql_call_fast_forward_returned st cat tbl target source w w' :
  sql_call_fast_forward E st cat tbl target source w = (Returned tt, w') ->
  exists rs vs, refs_at w (resolve E tbl) = Some rs /\ rs !! source = Some vs /\
                refs_at w' (resolve E tbl) = Some (<[target := vs]> rs).
Proof.
  run_op. do 2 eexists; split_and!; [by table_known | done | by simplify_map_eq].
Qed.

Lemma sql_drop_branch_delta st tbl b w r w' :
  sql_drop_branch E st tbl b w = (r, w') ->
  delta [SqlDropBranch tbl b] [] 0 w w'.
Proof. run_op. Qed.

Lemma sql_drop_branch_returned st tbl b w w' :
  sql_drop_branch E st tbl b w = (Returned tt, w') ->
  exists rs, refs_at w (resolve E tbl) = Some rs /\
             refs_at w' (resolve E tbl) = Some (delete b rs).
Proof. run_op. eexists; split; [by table_known | by simplify_map_eq]. Qed.

(** A failed operation leaves the catalog as it was. *)

Lemma sql_set_tblproperty_raised st tbl key value w e w' :
  sql_set_tblproperty E st tbl key value w = (Raised e, w') ->
  catalog w' = catalog w.
Proof. run_op. Qed.

Lemma df_write_append_raised st df b tbl w e w' :
  df_write_append E st df b tbl w = (Raised e, w') ->
  catalog w' = catalog w.
Proof. run_op. Qed.

Lemma df_write_append_outcome st df b tbl w rs v r w' :
  refs_at w (resolve E tbl) = Some rs -> rs !! b = Some v ->
  df_write_append E st df b tbl w = (r, w') ->
  r = match fault E st with
      | Some cls => Raised (spark_error cls)
      | None => Returned tt
      end.
Proof. unfold refs_at. run_op; simplify_option_eq. Qed.
End Operations.

(** ** Running the phases of [wap_append] *)

(** One step of symbolic execution of a run recorded in [H]: case on the
    outcome of the next operation; a raised outcome ends the run. *)
Ltac step_run H :=
  match type of H with
  | context [match ?x with _ => _ end] =>
      lazymatch x with
      | context [match _ with _ => _ end] => fail
      | _ => let Hx := fresh "Hrun" in
             destruct x eqn:Hx; cbv beta iota in H; try discriminate H
      end
  end.

Ltac unit_values :=
  repeat match goal with u : unit |- _ => destruct u end.

(** Replace the equation of each operation by what it says of the world. *)
Ltac learn_from H :=
  lazymatch type of H with
  | sql_set_tblproperty _ _ _ _ _ _ = _ =>
      pose proof (sql_set_tblproperty_delta _ _ _ _ _ _ _ _ H);
      pose proof (fun tid => sql_set_tblproperty_refs _ _ _ _ _ _ _ _ tid H);
      try pose proof (sql_set_tblproperty_raised _ _ _ _ _ _ _ _ H)
  | sql_unset_tblproperty _ _ _ _ _ = _ =>
      pose proof (sql_unset_tblproperty_delta _ _ _ _ _ _ _ H);
      pose proof (fun tid => sql_unset_tblproperty_refs _ _ _ _ _ _ _ tid H);
      pose proof (sql_unset_tblproperty_outcome _ _ _ _ _ _ _ H);
      try pose proof (sql_unset_tblproperty_unsets _ _ _ _ _ _ H)
  | sql_select_refs _ _ _ _ = _ =>
      destruct (sql_select_refs_delta _ _ _ _ _ _ H)
  | show _ _ = _ =>
      destruct (show_delta _ _ _ _ H) as (? & ? & ?)
  | print _ _ = _ =>
      destruct (print_delta _ _ _ _ H) as (? & ? & ?)
  | generate_branch_name _ _ _ = _ =>
      destruct (generate_branch_name_delta _ _ _ _ _ H) as (? & ? & ?)
  | spark_read_load _ _ _ _ _ = _ =>
      destruct (spark_read_load_delta _ _ _ _ _ _ _ H) as (? & ? & ?)
  | scan_count _ _ _ _ = _ =>
      destruct (scan_count_delta _ _ _ _ _ _ H);
      try destruct (scan_count_returned _ _ _ _ _ _ H) as (? & ? & ?)
  | df_count _ _ _ _ = _ =>
      destruct (df_count_same _ _ _ _ _ _ H)
  | sql_drop_branch_if_exists _ _ _ _ _ = _ =>
      pose proof (sql_drop_branch_if_exists_delta _ _ _ _ _ _ _ H);
      try destruct (sql_drop_branch_if_exists_returned _ _ _ _ _ _ H) as (? & ? & ?)
  | sql_create_branch _ _ _ _ _ = _ =>
      pose proof (sql_create_branch_delta _ _ _ _ _ _ _ H);
      try destruct (sql_create_branch_returned _ _ _ _ _ _ H) as (? & ? & ? & ? & ?)
  | df_write_append _ _ _ _ _ _ = _ =>
      pose proof (df_write_append_delta _ _ _ _ _ _ _ _ H);
      try pose proof (df_write_append_raised _ _ _ _ _ _ _ _ H);
      try destruct (df_write_append_returned _ _ _ _ _ _ _ H) as (? & ? & ? & ? & ?)
  | sql_call_fast_forward _ _ _ _ _ _ _ = _ =>
      pose proof (sql_call_fast_forward_delta _ _ _ _ _ _ _ _ _ H);
      try destruct (sql_call_fast_forward_returned _ _ _ _ _ _ _ _ H) as (? & ? & ? & ? & ?)
  | sql_drop_branch _ _ _ _ _ = _ =>
      pose proof (sql_drop_branch_delta _ _ _ _ _ _ _ H);
      try destruct (sql_drop_branch_returned _ _ _ _ _ _ H) as (? & ? & ?)
  end; clear H.

Ltac learn :=
  unit_values;
  repeat match goal with
         | H : _ = (_, _) |- _ => learn_from H
         end.

Lemma next_branch_name_eq E w w' prefix :
  uuids_drawn w' = uuids_drawn w ->
  next_branch_name E w' prefix = next_branch_name E w prefix.
Proof. unfold next_branch_name. by intros ->. Qed.

(** Express every fact about a later world in terms of the first one. *)
Ltac to_first_world :=
  unfold delta, branch_version, property, refs_at in *;
  destruct_and?;
  repeat match goal with
         | H : catalog ?w = _ |- _ => progress rewrite H in *
         | H : issued ?w = _ |- _ => progress rewrite H in *
         | H : stdout ?w = _ |- _ => progress rewrite H in *
         | H : uuids_drawn ?w = _ |- _ => progress rewrite H in *
         | H : forall tid, refs <$> catalog ?w !! tid = _ |- _ =>
             progress rewrite H in *
         end;
  simpl in *;
  repeat match goal with
         | H : uuids_drawn ?w' = uuids_drawn ?w |- _ =>
             progress rewrite (next_branch_name_eq _ _ _ _ H) in *
         end;
  rewrite ?app_nil_r, <- ?app_assoc in *; simpl in *.

Section Phases.
Context (E : Env) (catalog_name database_name table_name : string).
Context (data_df : list Row).

Let full_table_name := full_table_name_of catalog_name database_name table_name.

Lemma audit_branch_not_main w :
  next_branch_name E w "audit_branch" <> "main".
Proof. unfold next_branch_name. simpl. discriminate. Qed.

Lemma wap_branch_off_returned w b w1 :
  wap_branch_off E catalog_name database_name table_name w = (Returned b, w1) ->
  b = next_branch_name E w "audit_branch" /\
  (exists names,
      delta [ SqlSetTblProperty full_table_name wap_enabled_key "true";
              SqlSelectRefs full_table_name;
              SqlDropBranchIfExists table_name b;
              SqlCreateBranch table_name b ] [Shown names] 1 w w1) /\
  exists rs v0,
    refs_at w (resolve E table_name) = Some rs /\ rs !! "main" = Some v0 /\
    refs_at w1 (resolve E table_name) = Some (<[b := v0]> (delete b rs)).
Proof.
  intros H. unfold wap_branch_off, bind, ret in H.
  repeat step_run H. simplify_eq. learn. simplify_eq.
  to_first_world.
  split; [done|]. split; [by eexists|].
  exists x1, x0. split_and!; [done | | done].
  by rewrite lookup_delete_ne in H1 by apply audit_branch_not_main.
Qed.

Lemma wap_write_returned w b w1 :
  wap_write E catalog_name database_name table_name data_df w = (Returned b, w1) ->
  b = next_branch_name E w "audit_branch" /\
  (exists names,
      delta (take 5 (try_ops catalog_name database_name table_name data_df b))
            [Shown names] 1 w w1) /\
  exists v0,
    branch_version E w table_name "main" = Some v0 /\
    branch_version E w1 table_name "main" = Some v0 /\
    branch_version E w1 table_name b = Some (v0 ++ [data_df]).
Proof.
  intros H. unfold wap_write, bind, ret in H.
  repeat step_run H. simplify_eq.
  apply wap_branch_off_returned in Hrun as (-> & [names Hd] & rs & v0 & Hrs & Hmain & Hrs').
  learn. simplify_eq.
  pose proof (audit_branch_not_main w) as Hne.
  to_first_world.
  split; [done|]. split; [by eexists|].
  exists v0. simplify_map_eq. done.
Qed.

Lemma wap_audit_returned b w passed w2 :
  wap_audit E table_name data_df b w = (Returned passed, w2) ->
  catalog w2 = catalog w /\
  delta [DfLoad table_name b; DfCount table_name b; DfCount table_name b] [] 0 w w2 /\
  exists v,
    branch_version E w table_name b = Some v /\
    passed = Nat.eqb (length (rows_of v)) (length data_df) &&
             Nat.ltb 0 (length (rows_of v)).
Proof.
  intros H. unfold wap_audit, bind, ret in H.
  repeat step_run H. simplify_eq. learn.
  repeat match goal with
         | H : forall df, Returned _ = Returned df -> _ |- _ =>
             specialize (H _ eq_refl)
         | H : forall n : nat, Returned _ = Returned n -> _ |- _ =>
             specialize (H _ eq_refl)
         end.
  simplify_eq/=. to_first_world. simplify_eq.
  split_and!; try done. eauto.
Qed.

Lemma wap_publish_returned b w w' :
  wap_publish E catalog_name table_name b w = (Returned tt, w') ->
  delta [ SqlCallFastForward catalog_name table_name "main" b;
          SqlDropBranch table_name b ] [Printed msg_passed] 0 w w' /\
  exists rs vs,
    refs_at w (resolve E table_name) = Some rs /\ rs !! b = Some vs /\
    refs_at w' (resolve E table_name) = Some (delete b (<["main" := vs]> rs)).
Proof.
  intros H. unfold wap_publish, bind, ret in H.
  repeat step_run H. simplify_eq. learn. simplify_eq.
  to_first_world. simplify_eq. eauto 10.
Qed.
End Phases.

(** ** Bounds on what a run sends *)

Lemma quota_of_delta ops outs n c k w w' :
  delta ops outs n w w' ->
  (count_ops is_create_branch ops <= c)%nat -> (n <= k)%nat ->
  quota c k w w'.
Proof. intros (Hi & _ & Hu) Hc Hn. exists ops. split_and!; [done | done | lia]. Qed.

Lemma quota_refl c k w : quota c k w w.
Proof. exists []. rewrite app_nil_r. split_and!; [done | cbn; lia | lia]. Qed.

Lemma quota_trans c1 k1 c2 k2 w w1 w2 :
  quota c1 k1 w w1 -> quota c2 k2 w1 w2 -> quota (c1 + c2) (k1 + k2) w w2.
Proof.
  intros (o1 & Hi1 & Hc1 & Hu1) (o2 & Hi2 & Hc2 & Hu2).
  exists (o1 ++ o2). rewrite Hi2, Hi1, <- app_assoc.
  unfold count_ops in *. rewrite List.filter_app, length_app.
  split_and!; [done | lia | lia].
Qed.

(** Chain the deltas of consecutive operations into one. *)
Ltac chain :=
  repeat match goal with
         | H1 : delta _ _ _ ?a ?b, H2 : delta _ _ _ ?b ?c |- _ =>
             pose proof (delta_trans _ _ _ _ _ _ _ _ _ H1 H2); clear H1 H2
         end.

Ltac by_quota :=
  simplify_eq; learn; simplify_eq; chain;
  first [ apply quota_refl
        | match goal with
          | H : delta _ _ _ ?w ?w' |- quota _ _ ?w ?w' =>
              apply (quota_of_delta _ _ _ _ _ _ _ H); cbn; lia
          end ].

Section Quotas.
Context (E : Env) (catalog_name database_name table_name : string).
Context (data_df : list Row).

Lemma wap_write_quota w r w1 :
  wap_write E catalog_name database_name table_name data_df w = (r, w1) ->
  quota 1 1 w w1.
Proof.
  intros H. unfold wap_write, wap_branch_off, bind, ret in H.
  repeat step_run H; by_quota.
Qed.

Lemma wap_audit_quota b w r w1 :
  wap_audit E table_name data_df b w = (r, w1) -> quota 0 0 w w1.
Proof.
  intros H. unfold wap_audit, bind, ret in H.
  repeat step_run H; by_quota.
Qed.

Lemma wap_publish_quota b w r w1 :
  wap_publish E catalog_name table_name b w = (r, w1) -> quota 0 0 w w1.
Proof.
  intros H. unfold wap_publish, bind, ret in H.
  repeat step_run H; by_quota.
Qed.

Lemma wap_dont_publish_quota w r w1 :
  wap_dont_publish w = (r, w1) -> quota 0 0 w w1.
Proof. intros H. unfold wap_dont_publish in H. by_quota. Qed.

Lemma wap_cleanup_quota w r w1 :
  wap_cleanup E table_name w = (r, w1) -> quota 0 0 w w1.
Proof. intros H. unfold wap_cleanup in H. by_quota. Qed.

Lemma wap_try_quota w r w1 :
  wap_try E catalog_name database_name table_name data_df w = (r, w1) ->
  quota 1 1 w w1.
Proof.
  intros H. unfold wap_try, bind in H.
  destruct (wap_write _ _ _ _ _ w) as [[b|e] wa] eqn:Hw;
    apply wap_write_quota in Hw; [|by simplify_eq].
  destruct (wap_audit _ _ _ b wa) as [[passed|e] wb] eqn:Ha;
    apply wap_audit_quota in Ha;
    [|simplify_eq; apply (quota_trans _ _ _ _ _ _ _ Hw Ha)].
  pose proof (quota_trans _ _ _ _ _ _ _ Hw Ha) as Hq.
  destruct passed;
    [apply wap_publish_quota in H | apply wap_dont_publish_quota in H];
    apply (quota_trans _ _ _ _ _ _ _ Hq H).
Qed.
End Quotas.

(** ** The cleanup *)

Lemma sql_unset_tblproperty_property E st tbl key w r w' :
  sql_unset_tblproperty E st tbl key w = (r, w') ->
  fault E st = None -> property E w' tbl key = None.
Proof.
  unfold property. run_op; simplify_map_eq; done.
Qed.

(** [wap_append] is its [try] block followed by the cleanup, whose failure
    takes over from whatever the [try] block raised. *)
Lemma wap_append_unfold E catalog_name database_name table_name data_df w :
  wap_append E catalog_name database_name table_name data_df w =
  let '(r, w1) := wap_try E catalog_name database_name table_name data_df w in
  match wap_cleanup E table_name w1 with
  | (Returned _, w2) => (r, w2)
  | (Raised e2, w2) =>
      (Raised match r with
              | Raised e1 => raised_during e2 e1
              | Returned _ => e2
              end, w2)
  end.
Proof.
  unfold wap_append, try_finally, try_except, raise.
  by destruct (wap_try _ _ _ _ _ w) as [[[]|e] w1].
Qed.

(** C1 (as amended).  On every exit path of [wap_append] -- publish,
    reject, or an error raised anywhere in the [try] block, the initial
    SET included -- the UNSET of ['write.wap.enabled'] is the last operation
    sent to the catalog; and whenever the service does not fail that
    statement, the property is unset on the table that [table_name] names
    when the call exits. *)
Theorem wap_append_always_cleans_up E catalog_name database_name table_name data_df w r w' :
  wap_append E catalog_name database_name table_name data_df w = (r, w') ->
  last (issued w') = Some (SqlUnsetTblProperty table_name wap_enabled_key) /\
  (fault E AtUnsetProperty = None ->
   property E w' table_name wap_enabled_key = None).
Proof.
  rewrite wap_append_unfold.
  destruct (wap_try _ _ _ _ _ w) as [r1 w1].
  destruct (wap_cleanup E table_name w1) as [rc w2] eqn:Hc.
  intros H. assert (w' = w2) as -> by (destruct rc; congruence). clear H.
  unfold wap_cleanup in Hc. split.
  - apply sql_unset_tblproperty_delta in Hc as (-> & _). apply last_snoc.
  - intros Hf. by eapply sql_unset_tblproperty_property.
Qed.

(** C1, witness: the sample run of [main]'s payload on an empty table. *)
Lemma wap_append_always_cleans_up_witness :
  property (session no_fault) (run no_fault (transform read_data) []).2
           "my_iceberg_table" wap_enabled_key = None.
Proof.
  refine (proj2 (wap_append_always_cleans_up (session no_fault)
                   "glue_catalog" "athena_iceberg_test" "my_iceberg_table"
                   (transform read_data) (world_of [])
                   (run no_fault (transform read_data) []).1
                   (run no_fault (transform read_data) []).2 _) _).
  - vm_compute. reflexivity.
  - reflexivity.
Defined.

(** C1, counterexample: the audit rejects an empty payload and the service
    fails the UNSET; the call exits with the property still set. *)
Lemma wap_append_cleanup_failure_leaves_flag :
  let r := run (fail_at AtUnsetProperty "Py4JJavaError") [] [] in
  r.1 = Raised (Exn "Py4JJavaError" None) /\
  property (session (fail_at AtUnsetProperty "Py4JJavaError")) r.2
           "my_iceberg_table" wap_enabled_key = Some "true".
Proof. vm_compute. split; reflexivity. Qed.

(** ** Publish and reject *)

Lemma branch_version_catalog E w w' tbl b :
  catalog w' = catalog w -> branch_version E w' tbl b = branch_version E w tbl b.
Proof. unfold branch_version, refs_at. by intros ->. Qed.

Lemma branch_version_refs E w w' tbl b :
  refs_at w' (resolve E tbl) = refs_at w (resolve E tbl) ->
  branch_version E w' tbl b = branch_version E w tbl b.
Proof. unfold branch_version. by intros ->. Qed.

Lemma wap_cleanup_branches E tbl w r w' b :
  wap_cleanup E tbl w = (r, w') ->
  branch_version E w' tbl b = branch_version E w tbl b.
Proof.
  intros H. apply branch_version_refs.
  by eapply sql_unset_tblproperty_refs.
Qed.

(** The audit only reads: whatever its outcome, the catalog stays. *)
Lemma wap_audit_catalog E tbl df b w r w2 :
  wap_audit E tbl df b w = (r, w2) -> catalog w2 = catalog w.
Proof.
  intros H. unfold wap_audit, bind, ret in H.
  repeat step_run H; simplify_eq; learn; simplify_eq; congruence.
Qed.

(** C2.  In every run in which the audit verdict is passed and the call
    returns, the [main] branch points, after the call, at the version the
    audit branch had when it was read for the audit, and the audit branch
    no longer exists. *)
Theorem wap_append_publishes_passed_audit
    E catalog_name database_name table_name data_df w b w1 w2 w' :
  wap_write E catalog_name database_name table_name data_df w = (Returned b, w1) ->
  wap_audit E table_name data_df b w1 = (Returned true, w2) ->
  wap_append E catalog_name database_name table_name data_df w = (Returned tt, w') ->
  exists v,
    branch_version E w1 table_name b = Some v /\
    branch_version E w' table_name "main" = Some v /\
    branch_version E w' table_name b = None.
Proof.
  intros Hw Ha. rewrite wap_append_unfold. unfold wap_try, bind.
  rewrite Hw. cbv beta iota. rewrite Ha. cbv beta iota.
  destruct (wap_publish _ _ _ _ w2) as [[[]|e] w3] eqn:Hp;
    destruct (wap_cleanup E table_name w3) as [[[]|e'] w4] eqn:Hc;
    intros H; simplify_eq.
  apply wap_write_returned in Hw as (Hb & _ & v0 & _ & _ & Hv).
  apply wap_audit_catalog in Ha.
  apply wap_publish_returned in Hp as (_ & rs & vs & Hrs & Hvs & Hrs').
  exists (v0 ++ [data_df]). split; [done|].
  rewrite !(wap_cleanup_branches _ _ _ _ _ _ Hc).
  pose proof (audit_branch_not_main E w) as Hne. rewrite <- Hb in Hne.
  rewrite <- (branch_version_catalog E w1 w2 _ _ Ha) in Hv.
  unfold branch_version in *. rewrite Hrs in Hv. rewrite Hrs'.
  by simplify_map_eq.
Qed.

(** C2, witness: [main]'s payload on an empty table is published. *)
Lemma wap_append_publishes_passed_audit_witness :
  exists v,
    branch_version (session no_fault)
      (wap_write (session no_fault) "glue_catalog" "athena_iceberg_test"
                 "my_iceberg_table" (transform read_data) (world_of [])).2
      "my_iceberg_table" "audit_branch_3f2a9c" = Some v /\
    branch_version (session no_fault) (run no_fault (transform read_data) []).2
      "my_iceberg_table" "main" = Some v /\
    branch_version (session no_fault) (run no_fault (transform read_data) []).2
      "my_iceberg_table" "audit_branch_3f2a9c" = None.
Proof.
  refine (wap_append_publishes_passed_audit (session no_fault)
            "glue_catalog" "athena_iceberg_test" "my_iceberg_table"
            (transform read_data) (world_of []) "audit_branch_3f2a9c" _
            (wap_audit (session no_fault) "my_iceberg_table" (transform read_data)
               "audit_branch_3f2a9c"
               (wap_write (session no_fault) "glue_catalog" "athena_iceberg_test"
                  "my_iceberg_table" (transform read_data) (world_of [])).2).2
            _ _ _ _).
  - vm_compute. reflexivity.
  - vm_compute. reflexivity.
  - vm_compute. reflexivity.
Defined.

(** C3 (as amended).  In every run in which the audit verdict is failed,
    [main] points where it pointed before the call and the audit branch
    still exists, holding [main]'s commits followed by one commit with the
    written rows; the call returns [None] unless the service fails the
    cleanup statement, whose error it then raises. *)
Theorem wap_append_rejects_failed_audit
    E catalog_name database_name table_name data_df w b w1 w2 r w' :
  wap_write E catalog_name database_name table_name data_df w = (Returned b, w1) ->
  wap_audit E table_name data_df b w1 = (Returned false, w2) ->
  wap_append E catalog_name database_name table_name data_df w = (r, w') ->
  r = match fault E AtUnsetProperty with
      | Some cls => Raised (spark_error cls)
      | None => Returned tt
      end /\
  exists v0,
    branch_version E w table_name "main" = Some v0 /\
    branch_version E w' table_name "main" = Some v0 /\
    branch_version E w' table_name b = Some (v0 ++ [data_df]) /\
    rows_of (v0 ++ [data_df]) = rows_of v0 ++ data_df.
Proof.
  intros Hw Ha. rewrite wap_append_unfold. unfold wap_try, bind.
  rewrite Hw. cbv beta iota. rewrite Ha. cbv beta iota.
  destruct (wap_dont_publish w2) as [r3 w3] eqn:Hp.
  apply print_delta in Hp as (-> & _ & Hcat3).
  apply wap_write_returned in Hw as (_ & _ & v0 & Hm & Hm1 & Hv).
  apply wap_audit_catalog in Ha.
  destruct (wap_cleanup E table_name w3) as [rc w4] eqn:Hc.
  pose proof (fun b => wap_cleanup_branches _ _ _ _ _ b Hc) as Hbr.
  apply sql_unset_tblproperty_outcome in Hc.
  assert (Hcat : catalog w3 = catalog w1) by congruence.
  intros H. assert (w' = w4) as -> by (destruct rc; congruence).
  split.
  - assert (is_Some (catalog w3 !! resolve E table_name)) as [t Ht].
    { rewrite Hcat. unfold branch_version, refs_at in Hm1.
      destruct (catalog w1 !! resolve E table_name); [eauto | done]. }
    rewrite Ht in Hc. destruct (fault E AtUnsetProperty); by simplify_eq.
  - exists v0. rewrite !Hbr, !(branch_version_catalog E w1 w3 _ _ Hcat).
    split_and!; try done.
    unfold rows_of. rewrite concat_app. simpl. by rewrite app_nil_r.
Qed.

(** C3, witness: an empty payload is rejected, the call returns. *)
Lemma wap_append_rejects_failed_audit_witness :
  (run no_fault [] [[zed]]).1 = Returned tt /\
  exists v0,
    branch_version (session no_fault) (world_of [[zed]])
      "my_iceberg_table" "main" = Some v0 /\
    branch_version (session no_fault) (run no_fault [] [[zed]]).2
      "my_iceberg_table" "main" = Some v0 /\
    branch_version (session no_fault) (run no_fault [] [[zed]]).2
      "my_iceberg_table" "audit_branch_3f2a9c" = Some (v0 ++ [[]]) /\
    rows_of (v0 ++ [[]]) = rows_of v0 ++ [].
Proof.
  refine (wap_append_rejects_failed_audit (session no_fault)
            "glue_catalog" "athena_iceberg_test" "my_iceberg_table"
            [] (world_of [[zed]]) "audit_branch_3f2a9c" _
            (wap_audit (session no_fault) "my_iceberg_table" []
               "audit_branch_3f2a9c"
               (wap_write (session no_fault) "glue_catalog" "athena_iceberg_test"
                  "my_iceberg_table" [] (world_of [[zed]])).2).2
            (run no_fault [] [[zed]]).1 (run no_fault [] [[zed]]).2 _ _ _).
  - vm_compute. reflexivity.
  - vm_compute. reflexivity.
  - vm_compute. reflexivity.
Defined.

(** C3, counterexample: the audit rejects an empty payload, the service
    fails the cleanup statement, and the call ends in an error. *)
Lemma wap_append_rejected_run_raises :
  let faults := fail_at AtUnsetProperty "Py4JJavaError" in
  (wap_audit (session faults) "my_iceberg_table" [] "audit_branch_3f2a9c"
     (wap_write (session faults) "glue_catalog" "athena_iceberg_test"
        "my_iceberg_table" [] (world_of [])).2).1 = Returned false /\
  (run faults [] []).1 = Raised (Exn "Py4JJavaError" None).
Proof. vm_compute. split; reflexivity. Qed.

(** ** Errors *)

Lemma PyExn_chain_ind (P : PyExn -> Prop) :
  (forall cls, P (Exn cls None)) ->
  (forall cls e, P e -> P (Exn cls (Some e))) ->
  forall e, P e.
Proof. intros H0 HS. fix IH 1. intros [cls [e|]]; [apply HS, IH | apply H0]. Qed.

Lemma exn_class_raised_during e2 e1 :
  exn_class (raised_during e2 e1) = exn_class e2.
Proof. by destruct e2. Qed.

Lemma exn_class_spark_error cls : exn_class (spark_error cls) = cls.
Proof. unfold spark_error. by case_decide. Qed.

Lemma chain_length_raised_during e2 e1 :
  chain_length (raised_during e2 e1) = S (chain_length e2 + chain_length e1).
Proof.
  induction e2 as [cls|cls e IH] using PyExn_chain_ind; simpl; [done|].
  rewrite IH. lia.
Qed.

Lemma raised_during_differs e2 e1 : raised_during e2 e1 <> e1.
Proof.
  intros H. apply (f_equal chain_length) in H.
  rewrite chain_length_raised_during in H. lia.
Qed.

Lemma raised_during_chain e2 e1 : e1 ∈ context_chain (raised_during e2 e1).
Proof.
  induction e2 as [cls|cls e IH] using PyExn_chain_ind; simpl;
    [left | right; exact IH].
Qed.

(** An error raised by a Spark call while [e1] is in flight. *)
Lemma spark_error_raised_during cls e1 :
  exists e2, raised_during (spark_error cls) e1 = e2 /\ exn_class e2 = cls /\
             e2 <> e1 /\ e1 ∈ context_chain e2.
Proof.
  eexists. split; [reflexivity|]. split_and!.
  - by rewrite exn_class_raised_during, exn_class_spark_error.
  - apply raised_during_differs.
  - apply raised_during_chain.
Qed.

(** The outcome of the call when the [try] block raises [e1]. *)
Lemma wap_append_after_raise
    E catalog_name database_name table_name data_df w e1 w1 r w' :
  wap_try E catalog_name database_name table_name data_df w = (Raised e1, w1) ->
  wap_append E catalog_name database_name table_name data_df w = (r, w') ->
  r = match fault E AtUnsetProperty with
      | Some cls => Raised (raised_during (spark_error cls) e1)
      | None =>
          match catalog w1 !! resolve E table_name with
          | Some _ => Raised e1
          | None => Raised (raised_during (spark_error "NoSuchTableException") e1)
          end
      end.
Proof.
  intros Ht. rewrite wap_append_unfold, Ht.
  destruct (wap_cleanup E table_name w1) as [rc w2] eqn:Hc.
  apply sql_unset_tblproperty_outcome in Hc.
  destruct (fault E AtUnsetProperty);
    [|destruct (catalog w1 !! resolve E table_name)];
    subst rc; simpl; congruence.
Qed.

(** C4 (as amended).  When an error [e1] is propagating out of the [try]
    block and the cleanup fails as well, the error the caller gets is the
    cleanup's: it has the class of the cleanup's error, it is not [e1], and
    [e1] is only to be found down its [__context__] chain.  [e1] itself is
    what the caller gets when the cleanup succeeds.  The cleanup fails when
    the service fails the UNSET, or when [table_name] names no table. *)
Theorem wap_append_cleanup_error_takes_over
    E catalog_name database_name table_name data_df w e1 w1 r w' :
  wap_try E catalog_name database_name table_name data_df w = (Raised e1, w1) ->
  wap_append E catalog_name database_name table_name data_df w = (r, w') ->
  (forall cls, fault E AtUnsetProperty = Some cls ->
     exists e2, r = Raised e2 /\ exn_class e2 = cls /\ e2 <> e1 /\
                e1 ∈ context_chain e2) /\
  (fault E AtUnsetProperty = None ->
   catalog w1 !! resolve E table_name = None ->
     exists e2, r = Raised e2 /\ exn_class e2 = "NoSuchTableException" /\
                e2 <> e1 /\ e1 ∈ context_chain e2) /\
  (fault E AtUnsetProperty = None ->
   is_Some (catalog w1 !! resolve E table_name) ->
     r = Raised e1).
Proof.
  intros Ht Happ.
  pose proof (wap_append_after_raise _ _ _ _ _ _ _ _ _ _ Ht Happ) as Hr.
  split_and!.
  - intros cls Hf. rewrite Hf in Hr.
    destruct (spark_error_raised_during cls e1) as (e2 & He2 & Hcls & Hne & Hin).
    exists e2. by rewrite <- He2 at 1.
  - intros Hf Hno. rewrite Hf, Hno in Hr.
    destruct (spark_error_raised_during "NoSuchTableException" e1)
      as (e2 & He2 & Hcls & Hne & Hin).
    exists e2. by rewrite <- He2 at 1.
  - intros Hf [t Hsome]. by rewrite Hf, Hsome in Hr.
Qed.

(** C4, witness: the write fails; in one run the cleanup fails too, in the
    other it succeeds. *)
Lemma wap_append_cleanup_error_takes_over_witness :
  (exists e2,
      (run (fail_at2 AtWrite "Py4JJavaError" AtUnsetProperty "AnalysisException")
           (transform read_data) []).1 = Raised e2 /\
      exn_class e2 = "AnalysisException" /\
      e2 <> Exn "Py4JJavaError" None /\
      Exn "Py4JJavaError" None ∈ context_chain e2) /\
  (run (fail_at AtWrite "Py4JJavaError") (transform read_data) []).1 =
    Raised (Exn "Py4JJavaError" None).
Proof.
  split.
  - refine (proj1 (wap_append_cleanup_error_takes_over
              (session (fail_at2 AtWrite "Py4JJavaError"
                                 AtUnsetProperty "AnalysisException"))
              "glue_catalog" "athena_iceberg_test" "my_iceberg_table"
              (transform read_data) (world_of []) (Exn "Py4JJavaError" None)
              (wap_try (session (fail_at2 AtWrite "Py4JJavaError"
                                          AtUnsetProperty "AnalysisException"))
                 "glue_catalog" "athena_iceberg_test" "my_iceberg_table"
                 (transform read_data) (world_of [])).2
              _ (run (fail_at2 AtWrite "Py4JJavaError"
                               AtUnsetProperty "AnalysisException")
                     (transform read_data) []).2 _ _)
              "AnalysisException" _).
    + vm_compute. reflexivity.
    + vm_compute. reflexivity.
    + reflexivity.
  - refine (proj2 (proj2 (wap_append_cleanup_error_takes_over
              (session (fail_at AtWrite "Py4JJavaError"))
              "glue_catalog" "athena_iceberg_test" "my_iceberg_table"
              (transform read_data) (world_of []) (Exn "Py4JJavaError" None)
              (wap_try (session (fail_at AtWrite "Py4JJavaError"))
                 "glue_catalog" "athena_iceberg_test" "my_iceberg_table"
                 (transform read_data) (world_of [])).2
              _ (run (fail_at AtWrite "Py4JJavaError") (transform read_data) []).2
              _ _)) _ _).
    + vm_compute. reflexivity.
    + vm_compute. reflexivity.
    + reflexivity.
    + vm_compute. eauto.
Defined.

(** C4, counterexample: the write raises a [Py4JJavaError], then the
    cleanup raises an [AnalysisException]; what the caller gets is the
    [AnalysisException], not the error of the write, which is the
    [__context__] of the [__context__] of it. *)
Lemma wap_append_cleanup_error_masks_primary :
  let faults := fail_at2 AtWrite "Py4JJavaError" AtUnsetProperty "AnalysisException" in
  (wap_try (session faults) "glue_catalog" "athena_iceberg_test" "my_iceberg_table"
     (transform read_data) (world_of [])).1 = Raised (Exn "Py4JJavaError" None) /\
  (run faults (transform read_data) []).1 =
    Raised (Exn "AnalysisException"
              (Some (Exn "Py4JJavaError" (Some (Exn "Py4JJavaError" None))))) /\
  (run faults (transform read_data) []).1 <> Raised (Exn "Py4JJavaError" None).
Proof. vm_compute. split_and!; [reflexivity | reflexivity | discriminate]. Qed.

(** ** The audit *)

(** C5.  The verdict of the default audit is passed if and only if the row
    count read from the audit branch equals the payload's row count and is
    greater than zero; the audit does not change the catalog. *)
Theorem wap_audit_verdict E table_name data_df b w passed w2 :
  wap_audit E table_name data_df b w = (Returned passed, w2) ->
  catalog w2 = catalog w /\
  exists v,
    branch_version E w table_name b = Some v /\
    (passed = true <->
     length (rows_of v) = length data_df /\ (0 < length (rows_of v))%nat).
Proof.
  intros H. apply wap_audit_returned in H as (Hcat & _ & v & Hv & ->).
  split; [done|]. exists v. split; [done|].
  rewrite andb_true_iff, Nat.eqb_eq, Nat.ltb_lt. done.
Qed.

(** C5, witness: the audit of [main]'s payload written on an empty table. *)
Lemma wap_audit_verdict_witness :
  let w1 := (wap_write (session no_fault) "glue_catalog" "athena_iceberg_test"
               "my_iceberg_table" (transform read_data) (world_of [])).2 in
  let o := wap_audit (session no_fault) "my_iceberg_table" (transform read_data)
             "audit_branch_3f2a9c" w1 in
  catalog o.2 = catalog w1 /\
  exists v,
    branch_version (session no_fault) w1 "my_iceberg_table" "audit_branch_3f2a9c"
      = Some v /\
    (true = true <->
     length (rows_of v) = length (transform read_data) /\
     (0 < length (rows_of v))%nat).
Proof.
  refine (wap_audit_verdict (session no_fault) "my_iceberg_table"
            (transform read_data) "audit_branch_3f2a9c" _ true _ _).
  vm_compute. reflexivity.
Defined.

(** C6 (as amended).  In every run in which the write to the audit branch
    fails, nothing is sent to the catalog after the failed write but the
    cleanup statement, so the audit branch is not dropped: it stays where it
    was created, at [main]'s version, and [main] is untouched.  The write's
    error is re-raised unchanged when the cleanup succeeds; when the cleanup
    fails as well, the caller gets the cleanup's error, which is not the
    write's, and the write's error is only to be found down its
    [__context__] chain. *)
Theorem wap_append_write_failure
    E catalog_name database_name table_name data_df w b w1 e w2 r w' :
  wap_branch_off E catalog_name database_name table_name w = (Returned b, w1) ->
  df_write_append E AtWrite data_df b table_name w1 = (Raised e, w2) ->
  wap_append E catalog_name database_name table_name data_df w = (r, w') ->
  (fault E AtUnsetProperty = None -> r = Raised e) /\
  (forall cls, fault E AtUnsetProperty = Some cls ->
     exists e2, r = Raised e2 /\ exn_class e2 = cls /\ e2 <> e /\
                e ∈ context_chain e2) /\
  issued w' = issued w1 ++ [ DfAppend table_name b data_df;
                              SqlUnsetTblProperty table_name wap_enabled_key ] /\
  exists v0,
    branch_version E w table_name "main" = Some v0 /\
    branch_version E w' table_name "main" = Some v0 /\
    branch_version E w' table_name b = Some v0.
Proof.
  intros Hb Hw Happ.
  assert (wap_try E catalog_name database_name table_name data_df w = (Raised e, w2))
    as Ht.
  { unfold wap_try, wap_write, bind. rewrite Hb. cbv beta iota. by rewrite Hw. }
  pose proof (wap_append_after_raise _ _ _ _ _ _ _ _ _ _ Ht Happ) as Hr.
  rewrite wap_append_unfold, Ht in Happ.
  destruct (wap_cleanup E table_name w2) as [rc w3] eqn:Hc.
  assert (w' = w3) as -> by (destruct rc; congruence). clear Happ.
  apply wap_branch_off_returned in Hb as (Hname & _ & rs & v0 & Hrs & Hmain & Hrs1).
  pose proof (audit_branch_not_main E w) as Hne. rewrite <- Hname in Hne.
  pose proof (df_write_append_raised _ _ _ _ _ _ _ _ Hw) as Hcat.
  apply df_write_append_delta in Hw as (Hi2 & _ & _).
  pose proof (fun b => wap_cleanup_branches _ _ _ _ _ b Hc) as Hbr.
  apply sql_unset_tblproperty_delta in Hc as (Hi3 & _ & _).
  split_and!.
  - intros Hf. rewrite Hf in Hr. unfold refs_at in Hrs1. rewrite <- Hcat in Hrs1.
    by destruct (catalog w2 !! resolve E table_name).
  - intros cls Hf. rewrite Hf in Hr.
    destruct (spark_error_raised_during cls e) as (e2 & He2 & Hcls & Hne2 & Hin).
    exists e2. by rewrite <- He2 at 1.
  - by rewrite Hi3, Hi2, <- app_assoc.
  - exists v0. rewrite !Hbr, !(branch_version_catalog E w1 w2 _ _ Hcat).
    unfold branch_version. rewrite Hrs, Hrs1. by simplify_map_eq.
Qed.

(** C6, witness: the write fails and the cleanup succeeds; the write and
    the cleanup both fail. *)
Lemma wap_append_write_failure_witness :
  (let faults := fail_at AtWrite "Py4JJavaError" in
   let w1 := (wap_branch_off (session faults) "glue_catalog" "athena_iceberg_test"
                "my_iceberg_table" (world_of [[zed]])).2 in
   let o := run faults (transform read_data) [[zed]] in
   o.1 = Raised (Exn "Py4JJavaError" None) /\
   issued o.2 = issued w1 ++
     [ DfAppend "my_iceberg_table" "audit_branch_3f2a9c" (transform read_data);
       SqlUnsetTblProperty "my_iceberg_table" wap_enabled_key ] /\
   exists v0,
     branch_version (session faults) (world_of [[zed]]) "my_iceberg_table" "main"
       = Some v0 /\
     branch_version (session faults) o.2 "my_iceberg_table" "main" = Some v0 /\
     branch_version (session faults) o.2 "my_iceberg_table" "audit_branch_3f2a9c"
       = Some v0) /\
  (exists e2,
      (run (fail_at2 AtWrite "Py4JJavaError" AtUnsetProperty "AnalysisException")
           (transform read_data) [[zed]]).1 = Raised e2 /\
      exn_class e2 = "AnalysisException" /\
      e2 <> Exn "Py4JJavaError" None /\
      Exn "Py4JJavaError" None ∈ context_chain e2).
Proof.
  split.
  - destruct (wap_append_write_failure (session (fail_at AtWrite "Py4JJavaError"))
                "glue_catalog" "athena_iceberg_test" "my_iceberg_table"
                (transform read_data) (world_of [[zed]]) "audit_branch_3f2a9c"
                (wap_branch_off (session (fail_at AtWrite "Py4JJavaError"))
                   "glue_catalog" "athena_iceberg_test" "my_iceberg_table"
                   (world_of [[zed]])).2
                (Exn "Py4JJavaError" None)
                (df_write_append (session (fail_at AtWrite "Py4JJavaError")) AtWrite
                   (transform read_data) "audit_branch_3f2a9c" "my_iceberg_table"
                   (wap_branch_off (session (fail_at AtWrite "Py4JJavaError"))
                      "glue_catalog" "athena_iceberg_test" "my_iceberg_table"
                      (world_of [[zed]])).2).2
                (run (fail_at AtWrite "Py4JJavaError") (transform read_data) [[zed]]).1
                (run (fail_at AtWrite "Py4JJavaError") (transform read_data) [[zed]]).2)
      as (Hok & _ & Hops & Hbr).
    + vm_compute. reflexivity.
    + vm_compute. reflexivity.
    + vm_compute. reflexivity.
    + split; [apply Hok; reflexivity|]. split; [exact Hops | exact Hbr].
  - destruct (wap_append_write_failure
                (session (fail_at2 AtWrite "Py4JJavaError"
                                   AtUnsetProperty "AnalysisException"))
                "glue_catalog" "athena_iceberg_test" "my_iceberg_table"
                (transform read_data) (world_of [[zed]]) "audit_branch_3f2a9c"
                (wap_branch_off
                   (session (fail_at2 AtWrite "Py4JJavaError"
                                      AtUnsetProperty "AnalysisException"))
                   "glue_catalog" "athena_iceberg_test" "my_iceberg_table"
                   (world_of [[zed]])).2
                (Exn "Py4JJavaError" None)
                (df_write_append
                   (session (fail_at2 AtWrite "Py4JJavaError"
                                      AtUnsetProperty "AnalysisException"))
                   AtWrite (transform read_data) "audit_branch_3f2a9c"
                   "my_iceberg_table"
                   (wap_branch_off
                      (session (fail_at2 AtWrite "Py4JJavaError"
                                         AtUnsetProperty "AnalysisException"))
                      "glue_catalog" "athena_iceberg_test" "my_iceberg_table"
                      (world_of [[zed]])).2).2
                (run (fail_at2 AtWrite "Py4JJavaError"
                               AtUnsetProperty "AnalysisException")
                     (transform read_data) [[zed]]).1
                (run (fail_at2 AtWrite "Py4JJavaError"
                               AtUnsetProperty "AnalysisException")
                     (transform read_data) [[zed]]).2)
      as (_ & Hfail & _).
    + vm_compute. reflexivity.
    + vm_compute. reflexivity.
    + vm_compute. reflexivity.
    + apply Hfail. reflexivity.
Defined.

(** C6, counterexample: the write and the cleanup both fail on a table with
    one row; the error the caller gets is the cleanup's, not the write's. *)
Lemma wap_append_write_error_not_surfaced :
  let faults := fail_at2 AtWrite "Py4JJavaError" AtUnsetProperty "AnalysisException" in
  (df_write_append (session faults) AtWrite [zed] "audit_branch_3f2a9c"
     "my_iceberg_table"
     (wap_branch_off (session faults) "glue_catalog" "athena_iceberg_test"
        "my_iceberg_table" (world_of [[zed]])).2).1
    = Raised (Exn "Py4JJavaError" None) /\
  (exists e2, (run faults [zed] [[zed]]).1 = Raised e2 /\
              exn_class e2 = "AnalysisException") /\
  (run faults [zed] [[zed]]).1 <> Raised (Exn "Py4JJavaError" None).
Proof.
  vm_compute. split_and!; [reflexivity | eexists; split; reflexivity | discriminate].
Qed.

(** ** Branch creation *)

Lemma sql_create_branch_returned_no_fault E st tbl b w u w' :
  sql_create_branch E st tbl b w = (Returned u, w') -> fault E st = None.
Proof. run_op. Qed.

Lemma wap_write_returned_no_fault E catalog_name database_name table_name data_df
    w b w1 :
  wap_write E catalog_name database_name table_name data_df w = (Returned b, w1) ->
  fault E AtCreateBranch = None.
Proof.
  intros H. unfold wap_write, wap_branch_off, bind, ret in H.
  repeat step_run H.
  match goal with
  | H : sql_create_branch _ _ _ _ _ = _ |- _ =>
      apply sql_create_branch_returned_no_fault in H
  end. done.
Qed.

(** C7 (as amended).  [wap_append] does not retry the creation of the audit
    branch: whatever happens, a run draws at most one branch name and sends
    at most one [CREATE BRANCH]; when the service fails that statement, with
    a conflict or otherwise, the run ends in an error.  A stale branch of
    the same name is removed beforehand by [DROP BRANCH IF EXISTS]: when
    the branch has been created, the statements sent up to there are the
    SET, the listing, [DROP BRANCH IF EXISTS] and [CREATE BRANCH] in that
    order, and the branch is at [main]'s version whatever was under its name
    before. *)
Theorem wap_append_creates_branch_once
    E catalog_name database_name table_name data_df w r w' :
  wap_append E catalog_name database_name table_name data_df w = (r, w') ->
  (exists ops,
      issued w' = issued w ++ ops /\
      (count_ops is_create_branch ops <= 1)%nat /\
      (uuids_drawn w' <= 1 + uuids_drawn w)%nat) /\
  (forall cls, fault E AtCreateBranch = Some cls -> exists e, r = Raised e) /\
  (forall b w1,
      wap_branch_off E catalog_name database_name table_name w = (Returned b, w1) ->
      issued w1 = issued w ++
        [ SqlSetTblProperty
            (full_table_name_of catalog_name database_name table_name)
            wap_enabled_key "true";
          SqlSelectRefs (full_table_name_of catalog_name database_name table_name);
          SqlDropBranchIfExists table_name b;
          SqlCreateBranch table_name b ] /\
      exists v0,
        branch_version E w table_name "main" = Some v0 /\
        branch_version E w1 table_name b = Some v0).
Proof.
  rewrite wap_append_unfold.
  destruct (wap_try _ _ _ _ _ w) as [r1 w1] eqn:Ht.
  destruct (wap_cleanup E table_name w1) as [rc w2] eqn:Hc.
  intros H. assert (w' = w2) as -> by (destruct rc; congruence).
  split_and!.
  - apply wap_try_quota in Ht. apply wap_cleanup_quota in Hc.
    apply (quota_trans _ _ _ _ _ _ _ Ht Hc).
  - intros cls Hf.
    assert (exists e1, r1 = Raised e1) as [e1 ->].
    { unfold wap_try, bind in Ht.
      destruct (wap_write _ _ _ _ _ w) as [[b|e] wa] eqn:Hw.
      - apply wap_write_returned_no_fault in Hw. congruence.
      - simplify_eq. eauto. }
    destruct rc; simplify_eq; eauto.
  - intros b wb Hb.
    apply wap_branch_off_returned
      in Hb as (_ & (names & Hi & _) & rs & v0 & Hrs & Hmain & Hrs1).
    split; [exact Hi|]. exists v0. unfold branch_version.
    rewrite Hrs, Hrs1. by simplify_map_eq.
Qed.

(** C7, witness: the service reports a conflict on [CREATE BRANCH]; and a
    run on a table that has a stale branch of the name drawn, at another
    version than [main]'s. *)
Lemma wap_append_creates_branch_once_witness :
  (let o := run (fail_at AtCreateBranch "BranchAlreadyExistsException")
                (transform read_data) [] in
   (exists ops,
       issued o.2 = issued (world_of []) ++ ops /\
       (count_ops is_create_branch ops <= 1)%nat /\
       (uuids_drawn o.2 <= 1 + uuids_drawn (world_of []))%nat) /\
   exists e, o.1 = Raised e) /\
  (let E := session no_fault in
   let w := world_stale_branch in
   let w1 := (wap_branch_off E "glue_catalog" "athena_iceberg_test"
                "my_iceberg_table" w).2 in
   branch_version E w "my_iceberg_table" "audit_branch_3f2a9c" = Some [[zed]] /\
   issued w1 = issued w ++
     [ SqlSetTblProperty
         (full_table_name_of "glue_catalog" "athena_iceberg_test" "my_iceberg_table")
         wap_enabled_key "true";
       SqlSelectRefs
         (full_table_name_of "glue_catalog" "athena_iceberg_test" "my_iceberg_table");
       SqlDropBranchIfExists "my_iceberg_table" "audit_branch_3f2a9c";
       SqlCreateBranch "my_iceberg_table" "audit_branch_3f2a9c" ] /\
   exists v0,
     branch_version E w "my_iceberg_table" "main" = Some v0 /\
     branch_version E w1 "my_iceberg_table" "audit_branch_3f2a9c" = Some v0).
Proof.
  split.
  - destruct (wap_append_creates_branch_once
                (session (fail_at AtCreateBranch "BranchAlreadyExistsException"))
                "glue_catalog" "athena_iceberg_test" "my_iceberg_table"
                (transform read_data) (world_of [])
                (run (fail_at AtCreateBranch "BranchAlreadyExistsException")
                     (transform read_data) []).1
                (run (fail_at AtCreateBranch "BranchAlreadyExistsException")
                     (transform read_data) []).2)
      as (Hquota & Hraised & _).
    + vm_compute. reflexivity.
    + split; [exact Hquota|].
      apply (Hraised "BranchAlreadyExistsException"). reflexivity.
  - destruct (wap_append_creates_branch_once
                (session no_fault)
                "glue_catalog" "athena_iceberg_test" "my_iceberg_table"
                (transform read_data) world_stale_branch
                (wap_append (session no_fault) "glue_catalog" "athena_iceberg_test"
                   "my_iceberg_table" (transform read_data) world_stale_branch).1
                (wap_append (session no_fault) "glue_catalog" "athena_iceberg_test"
                   "my_iceberg_table" (transform read_data) world_stale_branch).2)
      as (_ & _ & Hstale).
    + vm_compute. reflexivity.
    + split; [vm_compute; reflexivity|].
      apply (Hstale "audit_branch_3f2a9c"). vm_compute. reflexivity.
Defined.

(** C7, counterexample: the service reports a conflict on [CREATE BRANCH];
    the run ends with that error after one generated name and one
    [CREATE BRANCH], without a second attempt. *)
Lemma wap_append_conflict_not_retried :
  let o := run (fail_at AtCreateBranch "BranchAlreadyExistsException")
               (transform read_data) [] in
  o.1 = Raised (spark_error "BranchAlreadyExistsException") /\
  count_ops is_create_branch (issued o.2) = 1%nat /\
  uuids_drawn o.2 = 1%nat.
Proof. vm_compute. split_and!; reflexivity. Qed.

(** ** A failure of the initial SET *)

(** C8 (as amended).  When the initial SET of the property fails, no
    further statement of the [try] block runs -- no listing, no name is
    drawn, no branch is dropped or created, nothing is written or read --
    but the cleanup of the [finally] block does: the UNSET is sent, and then
    an error is raised.  It is the SET's error when the cleanup succeeds;
    when the cleanup fails too, it is the cleanup's error, with the SET's
    down its [__context__] chain.  Branches are untouched. *)
Theorem wap_append_set_failure
    E catalog_name database_name table_name data_df w e w1 r w' :
  sql_set_tblproperty E AtSetProperty
    (full_table_name_of catalog_name database_name table_name)
    wap_enabled_key "true" w = (Raised e, w1) ->
  wap_append E catalog_name database_name table_name data_df w = (r, w') ->
  issued w' = issued w ++
    [ SqlSetTblProperty (full_table_name_of catalog_name database_name table_name)
        wap_enabled_key "true";
      SqlUnsetTblProperty table_name wap_enabled_key ] /\
  stdout w' = stdout w /\ uuids_drawn w' = uuids_drawn w /\
  (forall tid, refs_at w' tid = refs_at w tid) /\
  (exists e', r = Raised e') /\
  (fault E AtUnsetProperty = None ->
   is_Some (catalog w !! resolve E table_name) ->
     r = Raised e) /\
  (forall cls, fault E AtUnsetProperty = Some cls ->
     exists e2, r = Raised e2 /\ exn_class e2 = cls /\ e2 <> e /\
                e ∈ context_chain e2) /\
  (fault E AtUnsetProperty = None ->
   catalog w !! resolve E table_name = None ->
     exists e2, r = Raised e2 /\ exn_class e2 = "NoSuchTableException" /\
                e2 <> e /\ e ∈ context_chain e2).
Proof.
  intros Hs Happ.
  assert (wap_try E catalog_name database_name table_name data_df w = (Raised e, w1))
    as Ht.
  { unfold wap_try, wap_write, wap_branch_off, bind. by rewrite Hs. }
  pose proof (wap_append_after_raise _ _ _ _ _ _ _ _ _ _ Ht Happ) as Hr.
  rewrite wap_append_unfold, Ht in Happ.
  destruct (wap_cleanup E table_name w1) as [rc w2] eqn:Hc.
  assert (w' = w2) as -> by (destruct rc; congruence). clear Happ.
  pose proof (fun tid => sql_set_tblproperty_refs _ _ _ _ _ _ _ _ tid Hs) as Hrefs1.
  pose proof (fun tid => sql_unset_tblproperty_refs _ _ _ _ _ _ _ tid Hc) as Hrefs2.
  pose proof (sql_set_tblproperty_raised _ _ _ _ _ _ _ _ Hs) as Hcat.
  apply sql_set_tblproperty_delta in Hs as (Hi1 & Ho1 & Hu1).
  apply sql_unset_tblproperty_delta in Hc as (Hi2 & Ho2 & Hu2).
  rewrite Hcat in Hr.
  split_and!.
  - by rewrite Hi2, Hi1, <- app_assoc.
  - by rewrite Ho2, Ho1, !app_nil_r.
  - by rewrite Hu2, Hu1.
  - intros tid. by rewrite Hrefs2, Hrefs1.
  - rewrite Hr. destruct (fault E AtUnsetProperty); [eauto|].
    destruct (catalog w !! resolve E table_name); eauto.
  - intros Hf [t Hsome]. by rewrite Hf, Hsome in Hr.
  - intros cls Hf. rewrite Hf in Hr.
    destruct (spark_error_raised_during cls e) as (e2 & He2 & Hcls & Hne & Hin).
    exists e2. by rewrite <- He2 at 1.
  - intros Hf Hno. rewrite Hf, Hno in Hr.
    destruct (spark_error_raised_during "NoSuchTableException" e)
      as (e2 & He2 & Hcls & Hne & Hin).
    exists e2. by rewrite <- He2 at 1.
Qed.

(** C8, witness: the service fails the SET and the cleanup succeeds; the
    service fails the SET and the UNSET. *)
Lemma wap_append_set_failure_witness :
  (let o := run (fail_at AtSetProperty "Py4JJavaError") (transform read_data) [] in
   issued o.2 = issued (world_of []) ++
     [ SqlSetTblProperty
         (full_table_name_of "glue_catalog" "athena_iceberg_test" "my_iceberg_table")
         wap_enabled_key "true";
       SqlUnsetTblProperty "my_iceberg_table" wap_enabled_key ] /\
   stdout o.2 = stdout (world_of []) /\
   uuids_drawn o.2 = uuids_drawn (world_of []) /\
   (forall tid, refs_at o.2 tid = refs_at (world_of []) tid) /\
   o.1 = Raised (Exn "Py4JJavaError" None)) /\
  (exists e2,
      (run (fail_at2 AtSetProperty "Py4JJavaError" AtUnsetProperty "AnalysisException")
           (transform read_data) []).1 = Raised e2 /\
      exn_class e2 = "AnalysisException" /\
      e2 <> Exn "Py4JJavaError" None /\
      Exn "Py4JJavaError" None ∈ context_chain e2).
Proof.
  split.
  - destruct (wap_append_set_failure (session (fail_at AtSetProperty "Py4JJavaError"))
                "glue_catalog" "athena_iceberg_test" "my_iceberg_table"
                (transform read_data) (world_of []) (Exn "Py4JJavaError" None)
                (log_op (SqlSetTblProperty
                           "glue_catalog.athena_iceberg_test.my_iceberg_table"
                           wap_enabled_key "true") (world_of []))
                (run (fail_at AtSetProperty "Py4JJavaError")
                     (transform read_data) []).1
                (run (fail_at AtSetProperty "Py4JJavaError")
                     (transform read_data) []).2)
      as (Hops & Hout & Hids & Hrefs & _ & Hsame & _).
    + vm_compute. reflexivity.
    + vm_compute. reflexivity.
    + split_and!; [exact Hops | exact Hout | exact Hids | exact Hrefs |].
      apply Hsame; [reflexivity | vm_compute; eauto].
  - destruct (wap_append_set_failure
                (session (fail_at2 AtSetProperty "Py4JJavaError"
                                   AtUnsetProperty "AnalysisException"))
                "glue_catalog" "athena_iceberg_test" "my_iceberg_table"
                (transform read_data) (world_of []) (Exn "Py4JJavaError" None)
                (log_op (SqlSetTblProperty
                           "glue_catalog.athena_iceberg_test.my_iceberg_table"
                           wap_enabled_key "true") (world_of []))
                (run (fail_at2 AtSetProperty "Py4JJavaError"
                               AtUnsetProperty "AnalysisException")
                     (transform read_data) []).1
                (run (fail_at2 AtSetProperty "Py4JJavaError"
                               AtUnsetProperty "AnalysisException")
                     (transform read_data) []).2)
      as (_ & _ & _ & _ & _ & _ & Hfail & _).
    + vm_compute. reflexivity.
    + vm_compute. reflexivity.
    + apply (Hfail "AnalysisException"). reflexivity.
Defined.

(** C8, counterexample: the service fails the SET, and the UNSET is sent to
    the catalog all the same before the error reaches the caller. *)
Lemma wap_append_cleans_up_after_failed_set :
  let o := run (fail_at AtSetProperty "Py4JJavaError") (transform read_data) [] in
  o.1 = Raised (Exn "Py4JJavaError" None) /\
  issued o.2 =
    [ SqlSetTblProperty "glue_catalog.athena_iceberg_test.my_iceberg_table"
        "write.wap.enabled" "true";
      SqlUnsetTblProperty "my_iceberg_table" "write.wap.enabled" ].
Proof. vm_compute. split; reflexivity. Qed.

(** ** What the caller gets *)

(** C9 (as amended).  A run that completes without an error returns [None];
    the terminal status is reported on standard output only, as the last
    line printed: the passed message when the audit passed and the changes
    were published, the failed message when it did not.  Neither the name
    of the audit branch nor the results of the checks are returned. *)
Theorem wap_append_returns_none
    E catalog_name database_name table_name data_df w a w' :
  wap_append E catalog_name database_name table_name data_df w = (Returned a, w') ->
  a = tt /\
  exists b w1 passed w2 names,
    wap_write E catalog_name database_name table_name data_df w = (Returned b, w1) /\
    wap_audit E table_name data_df b w1 = (Returned passed, w2) /\
    stdout w' = stdout w ++
      [Shown names; Printed (if passed then msg_passed else msg_failed)].
Proof.
  rewrite wap_append_unfold. unfold wap_try, bind.
  destruct (wap_write _ _ _ _ _ w) as [[b|e] w1] eqn:Hw; cbv beta iota;
    [|destruct (wap_cleanup E table_name w1) as [[|] ?]; discriminate].
  destruct (wap_audit _ _ _ b w1) as [[passed|e] w2] eqn:Ha; cbv beta iota;
    [|destruct (wap_cleanup E table_name w2) as [[|] ?]; discriminate].
  destruct (if passed then _ else _) as [[[]|e] w3] eqn:Hp;
    destruct (wap_cleanup E table_name w3) as [[[]|e'] w4] eqn:Hc;
    intros H; simplify_eq.
  split; [done|].
  pose proof Hw as Hw'. pose proof Ha as Ha'.
  apply wap_write_returned in Hw' as (_ & [names (_ & Ho1 & _)] & _).
  apply wap_audit_returned in Ha' as (_ & (_ & Ho2 & _) & _).
  apply sql_unset_tblproperty_delta in Hc as (_ & Ho4 & _).
  exists b, w1, passed, w2, names. split_and!; [done | done |].
  rewrite Ho4, !app_nil_r.
  destruct passed.
  - apply wap_publish_returned in Hp as ((_ & Ho3 & _) & _).
    rewrite Ho3, Ho2, Ho1, !app_nil_r, <- app_assoc. done.
  - apply print_delta in Hp as (_ & (_ & Ho3 & _) & _).
    rewrite Ho3, Ho2, Ho1, !app_nil_r, <- app_assoc. done.
Qed.

(** C9, witness: the published run of [main]'s payload. *)
Lemma wap_append_returns_none_witness :
  tt = tt /\
  exists b w1 passed w2 names,
    wap_write (session no_fault) "glue_catalog" "athena_iceberg_test"
      "my_iceberg_table" (transform read_data) (world_of []) = (Returned b, w1) /\
    wap_audit (session no_fault) "my_iceberg_table" (transform read_data) b w1
      = (Returned passed, w2) /\
    stdout (run no_fault (transform read_data) []).2 = stdout (world_of []) ++
      [Shown names; Printed (if passed then msg_passed else msg_failed)].
Proof.
  refine (wap_append_returns_none (session no_fault)
            "glue_catalog" "athena_iceberg_test" "my_iceberg_table"
            (transform read_data) (world_of []) tt _ _).
  vm_compute. reflexivity.
Defined.

(** C9, counterexample: a run that publishes and a run that rejects hand
    the same value, [None], to the caller; no function of the returned value
    tells them apart, and the status is on standard output only. *)
Lemma wap_append_result_has_no_status :
  let published := run no_fault (transform read_data) [] in
  let rejected := run no_fault [] [] in
  published.1 = Returned tt /\ rejected.1 = Returned tt /\
  (forall status_of : Outcome unit -> bool,
      status_of published.1 = status_of rejected.1) /\
  last (stdout published.2) = Some (Printed msg_passed) /\
  last (stdout rejected.2) = Some (Printed msg_failed).
Proof.
  vm_compute. split_and!; intros; reflexivity.
Qed.

(** ** The row-count check on a table that has rows *)

(** C10.  The audit counts all rows of the audit branch, those of [main] at
    the time the branch was created and the payload after them; so in every
    run on a table whose [main] is non-empty that gets as far as the audit,
    the count differs from the payload's, every verdict is failed, and
    [main] is where it was when the call exits.  (The payload need not be
    non-empty for this.) *)
Theorem wap_append_nonempty_base_never_published
    E catalog_name database_name table_name data_df w v0 b w1 :
  branch_version E w table_name "main" = Some v0 ->
  rows_of v0 <> [] ->
  wap_write E catalog_name database_name table_name data_df w = (Returned b, w1) ->
  (exists v,
      branch_version E w1 table_name b = Some v /\
      length (rows_of v) = (length (rows_of v0) + length data_df)%nat /\
      length (rows_of v) <> length data_df) /\
  (forall passed w2,
      wap_audit E table_name data_df b w1 = (Returned passed, w2) -> passed = false) /\
  (forall r w',
      wap_append E catalog_name database_name table_name data_df w = (r, w') ->
      branch_version E w' table_name "main" = Some v0).
Proof.
  intros Hm Hne Hw.
  pose proof Hw as Hw'.
  apply wap_write_returned in Hw' as (_ & _ & v0' & Hm' & Hm1 & Hv).
  assert (v0' = v0) as -> by congruence.
  assert (Hlen : length (rows_of (v0 ++ [data_df])) =
                 (length (rows_of v0) + length data_df)%nat).
  { unfold rows_of. rewrite concat_app. simpl. by rewrite app_nil_r, length_app. }
  assert (Hpos : (0 < length (rows_of v0))%nat).
  { destruct (rows_of v0); [done | simpl; lia]. }
  assert (Hverdict : forall passed w2,
             wap_audit E table_name data_df b w1 = (Returned passed, w2) ->
             passed = false).
  { intros passed w2 Ha.
    apply wap_audit_returned in Ha as (_ & _ & v & Hv' & ->).
    assert (v = v0 ++ [data_df]) as -> by congruence.
    apply andb_false_iff. left. apply Nat.eqb_neq. lia. }
  split_and!.
  - exists (v0 ++ [data_df]). split_and!; [done | done | lia].
  - done.
  - intros r w'. rewrite wap_append_unfold. unfold wap_try, bind.
    rewrite Hw. cbv beta iota.
    destruct (wap_audit _ _ _ b w1) as [[passed|e] w2] eqn:Ha; cbv beta iota.
    + pose proof (Hverdict _ _ eq_refl) as ->.
      apply wap_audit_catalog in Ha.
      destruct (wap_dont_publish w2) as [r3 w3] eqn:Hp.
      apply print_delta in Hp as (_ & _ & Hcat3).
      destruct (wap_cleanup E table_name w3) as [rc w4] eqn:Hc.
      intros H. assert (w' = w4) as -> by (destruct rc; congruence).
      rewrite (wap_cleanup_branches _ _ _ _ _ _ Hc).
      rewrite (branch_version_catalog E w1 w3); [done | congruence].
    + apply wap_audit_catalog in Ha.
      destruct (wap_cleanup E table_name w2) as [rc w4] eqn:Hc.
      intros H. assert (w' = w4) as -> by (destruct rc; congruence).
      rewrite (wap_cleanup_branches _ _ _ _ _ _ Hc).
      by rewrite (branch_version_catalog E w1 w2).
Qed.

(** C10, witness: [main]'s payload on a table that holds one row. *)
Lemma wap_append_nonempty_base_never_published_witness :
  let w1 := (wap_write (session no_fault) "glue_catalog" "athena_iceberg_test"
               "my_iceberg_table" (transform read_data) (world_of [[zed]])).2 in
  (exists v,
      branch_version (session no_fault) w1 "my_iceberg_table" "audit_branch_3f2a9c"
        = Some v /\
      length (rows_of v) = (length (rows_of [[zed]]) + length (transform read_data))%nat /\
      length (rows_of v) <> length (transform read_data)) /\
  (forall passed w2,
      wap_audit (session no_fault) "my_iceberg_table" (transform read_data)
        "audit_branch_3f2a9c" w1 = (Returned passed, w2) -> passed = false) /\
  (forall r w',
      wap_append (session no_fault) "glue_catalog" "athena_iceberg_test"
        "my_iceberg_table" (transform read_data) (world_of [[zed]]) = (r, w') ->
      branch_version (session no_fault) w' "my_iceberg_table" "main" = Some [[zed]]).
Proof.
  refine (wap_append_nonempty_base_never_published (session no_fault)
            "glue_catalog" "athena_iceberg_test" "my_iceberg_table"
            (transform read_data) (world_of [[zed]]) [[zed]]
            "audit_branch_3f2a9c" _ _ _ _).
  - vm_compute. reflexivity.
  - discriminate.
  - vm_compute. reflexivity.
Defined.

(** * Further properties of the code *)

(** ** The frame of each operation *)

Lemma frame_refl touched tid0 allowed w : frame touched tid0 allowed w w.
Proof. by unfold frame. Qed.

Lemma frame_trans touched tid0 allowed w w1 w2 :
  frame touched tid0 allowed w w1 -> frame touched tid0 allowed w1 w2 ->
  frame touched tid0 allowed w w2.
Proof.
  intros (H1 & H2 & H3) (H1' & H2' & H3'). split_and!; intros.
  - by rewrite H1', H1.
  - by rewrite H2', H2.
  - by rewrite H3', H3.
Qed.

Lemma frame_of_catalog touched tid0 allowed w w' :
  catalog w' = catalog w -> frame touched tid0 allowed w w'.
Proof. unfold frame, props_at, branch_at, refs_at. by intros ->. Qed.

Ltac frame_cases tid id :=
  unfold frame, props_at, branch_at, refs_at; simpl;
  split_and!; [intros tid ? | intros tid | intros tid ? ?];
  (destruct (decide (tid = id)) as [->|];
   [ | by rewrite lookup_insert_ne by done ]).

Section Frames.
Context (E : Env) (touched : list string) (allowed : list string).

Lemma sql_set_tblproperty_frame tid0 st tbl value w r w' :
  resolve E tbl ∈ touched ->
  sql_set_tblproperty E st tbl wap_enabled_key value w = (r, w') ->
  frame touched tid0 allowed w w'.
Proof.
  intros Ht. run_op; try by apply frame_of_catalog.
  frame_cases tid (resolve E tbl); simplify_map_eq; try done.
  by rewrite delete_insert_eq.
Qed.

Lemma sql_unset_tblproperty_frame tid0 st tbl w r w' :
  resolve E tbl ∈ touched ->
  sql_unset_tblproperty E st tbl wap_enabled_key w = (r, w') ->
  frame touched tid0 allowed w w'.
Proof.
  intros Ht. run_op; try by apply frame_of_catalog.
  frame_cases tid (resolve E tbl); simplify_map_eq; try done.
  by rewrite delete_delete_eq.
Qed.
End Frames.

Section BranchFrames.
Context (E : Env) (touched : list string) (allowed : list string).

Lemma sql_select_refs_frame tid0 st tbl w r w' :
  sql_select_refs E st tbl w = (r, w') -> frame touched tid0 allowed w w'.
Proof. intros H. apply frame_of_catalog. by apply sql_select_refs_delta in H as [_ ?]. Qed.

Lemma show_frame tid0 names w r w' :
  show names w = (r, w') -> frame touched tid0 allowed w w'.
Proof. intros H. apply frame_of_catalog. by apply show_delta in H as (_ & _ & ?). Qed.

Lemma print_frame tid0 line w r w' :
  print line w = (r, w') -> frame touched tid0 allowed w w'.
Proof. intros H. apply frame_of_catalog. by apply print_delta in H as (_ & _ & ?). Qed.

Lemma generate_branch_name_frame tid0 prefix w r w' :
  generate_branch_name E prefix w = (r, w') -> frame touched tid0 allowed w w'.
Proof.
  intros H. apply frame_of_catalog.
  by apply generate_branch_name_delta in H as (_ & _ & ?).
Qed.

Lemma spark_read_load_frame tid0 st b tbl w r w' :
  spark_read_load E st b tbl w = (r, w') -> frame touched tid0 allowed w w'.
Proof.
  intros H. apply frame_of_catalog.
  by apply spark_read_load_delta in H as (_ & ? & _).
Qed.

Lemma scan_count_frame tid0 st df w r w' :
  scan_count E st df w = (r, w') -> frame touched tid0 allowed w w'.
Proof. intros H. apply frame_of_catalog. by apply scan_count_delta in H as [_ ?]. Qed.

Lemma df_count_frame tid0 st df w r w' :
  df_count E st df w = (r, w') -> frame touched tid0 allowed w w'.
Proof. intros H. apply df_count_same in H as [-> _]. apply frame_refl. Qed.

Lemma sql_drop_branch_if_exists_frame st tbl b w r w' :
  resolve E tbl ∈ touched -> b ∈ allowed ->
  sql_drop_branch_if_exists E st tbl b w = (r, w') ->
  frame touched (resolve E tbl) allowed w w'.
Proof.
  intros Ht Hb. run_op; try by apply frame_of_catalog.
  frame_cases tid (resolve E tbl); simplify_map_eq; try done.
  rewrite lookup_delete_ne; [done | set_solver].
Qed.

Lemma sql_create_branch_frame st tbl b w r w' :
  resolve E tbl ∈ touched -> b ∈ allowed ->
  sql_create_branch E st tbl b w = (r, w') ->
  frame touched (resolve E tbl) allowed w w'.
Proof.
  intros Ht Hb. run_op; try by apply frame_of_catalog.
  frame_cases tid (resolve E tbl); simplify_map_eq; try done.
  rewrite lookup_insert_ne; [done | set_solver].
Qed.

Lemma df_write_append_frame st df b tbl w r w' :
  resolve E tbl ∈ touched -> b ∈ allowed ->
  df_write_append E st df b tbl w = (r, w') ->
  frame touched (resolve E tbl) allowed w w'.
Proof.
  intros Ht Hb. run_op; try by apply frame_of_catalog.
  frame_cases tid (resolve E tbl); simplify_map_eq; try done.
  rewrite lookup_insert_ne; [done | set_solver].
Qed.

Lemma sql_call_fast_forward_frame st cat tbl target source w r w' :
  resolve E tbl ∈ touched -> target ∈ allowed ->
  sql_call_fast_forward E st cat tbl target source w = (r, w') ->
  frame touched (resolve E tbl) allowed w w'.
Proof.
  intros Ht Hb. run_op; try by apply frame_of_catalog.
  frame_cases tid (resolve E tbl); simplify_map_eq; try done.
  rewrite lookup_insert_ne; [done | set_solver].
Qed.

Lemma sql_drop_branch_frame st tbl b w r w' :
  resolve E tbl ∈ touched -> b ∈ allowed ->
  sql_drop_branch E st tbl b w = (r, w') ->
  frame touched (resolve E tbl) allowed w w'.
Proof.
  intros Ht Hb. run_op; try by apply frame_of_catalog.
  frame_cases tid (resolve E tbl); simplify_map_eq; try done.
  rewrite lookup_delete_ne; [done | set_solver].
Qed.
End BranchFrames.

(** Walk along the operations of a run, from the world on the left of the
    goal, and put their frames together. *)
Ltac frame_step H :=
  first [ eapply sql_set_tblproperty_frame; [|exact H]
        | eapply sql_unset_tblproperty_frame; [|exact H]
        | eapply sql_select_refs_frame; exact H
        | eapply show_frame; exact H
        | eapply print_frame; exact H
        | eapply generate_branch_name_frame; exact H
        | eapply spark_read_load_frame; exact H
        | eapply scan_count_frame; exact H
        | eapply df_count_frame; exact H
        | eapply sql_drop_branch_if_exists_frame; [| |exact H]
        | eapply sql_create_branch_frame; [| |exact H]
        | eapply df_write_append_frame; [| |exact H]
        | eapply sql_call_fast_forward_frame; [| |exact H]
        | eapply sql_drop_branch_frame; [| |exact H] ].

Ltac by_frame :=
  simplify_eq;
  repeat match goal with
         | |- frame _ _ _ ?w ?w => apply frame_refl
         | H : ?f ?w = (_, ?w1) |- frame _ _ _ ?w _ =>
             apply (frame_trans _ _ _ w w1); [frame_step H; set_solver | clear H]
         end.

Lemma before_name_is_drawn E st1 tbl1 key value st2 tbl2 names w r0 w0 r2 w2 r3 w3 :
  sql_set_tblproperty E st1 tbl1 key value w = (r0, w0) ->
  sql_select_refs E st2 tbl2 w0 = (r2, w2) ->
  show names w2 = (r3, w3) ->
  uuids_drawn w3 = uuids_drawn w.
Proof.
  intros (_ & _ & H1)%sql_set_tblproperty_delta
         [(_ & _ & H2) _]%sql_select_refs_delta
         (_ & (_ & _ & H3) & _)%show_delta.
  by rewrite H3, H2, H1.
Qed.

(** In a run recorded by its operations, name the audit branch after the
    world the call started in. *)
Ltac name_from_start :=
  try match goal with
      | Hs : sql_set_tblproperty _ _ _ _ _ ?w = _,
        Hl : sql_select_refs _ _ _ _ = _,
        Hh : show _ _ = (_, ?w3),
        Hg : generate_branch_name _ _ ?w3 = (Returned _, _) |- _ =>
          let Hu := fresh "Hu" in
          pose proof (before_name_is_drawn _ _ _ _ _ _ _ _ _ _ _ _ _ _ _ Hs Hl Hh) as Hu;
          pose proof (generate_branch_name_delta _ _ _ _ _ Hg) as (? & _ & _);
          simplify_eq;
          rewrite ?(next_branch_name_eq _ _ _ _ Hu) in *
      end.

Section PhaseFrames.
Context (E : Env) (catalog_name database_name table_name : string).
Context (data_df : list Row).

Lemma wap_write_frame touched allowed w r w1 :
  resolve E (full_table_name_of catalog_name database_name table_name) ∈ touched ->
  resolve E table_name ∈ touched ->
  next_branch_name E w "audit_branch" ∈ allowed ->
  wap_write E catalog_name database_name table_name data_df w = (r, w1) ->
  frame touched (resolve E table_name) allowed w w1.
Proof.
  intros Hf Ht Hb H. unfold wap_write, wap_branch_off, bind, ret in H.
  repeat step_run H; name_from_start; by_frame.
Qed.

Lemma wap_audit_frame touched tid0 allowed b w r w1 :
  wap_audit E table_name data_df b w = (r, w1) ->
  frame touched tid0 allowed w w1.
Proof. intros H. apply frame_of_catalog. by eapply wap_audit_catalog. Qed.

Lemma wap_publish_frame touched allowed b w r w1 :
  resolve E table_name ∈ touched -> "main" ∈ allowed -> b ∈ allowed ->
  wap_publish E catalog_name table_name b w = (r, w1) ->
  frame touched (resolve E table_name) allowed w w1.
Proof.
  intros Ht Hm Hb H. unfold wap_publish, bind, ret in H.
  repeat step_run H; by_frame.
Qed.

Lemma wap_cleanup_frame touched tid0 allowed w r w1 :
  resolve E table_name ∈ touched ->
  wap_cleanup E table_name w = (r, w1) ->
  frame touched tid0 allowed w w1.
Proof. intros Ht H. by eapply sql_unset_tblproperty_frame. Qed.

(** The whole call: it may touch the table its SET names and the table
    [table_name] names, and of the branches only [main] and the audit
    branch of the run. *)
Lemma wap_append_frame w r w' :
  wap_append E catalog_name database_name table_name data_df w = (r, w') ->
  frame [ resolve E (full_table_name_of catalog_name database_name table_name);
          resolve E table_name ]
        (resolve E table_name)
        [ "main"; next_branch_name E w "audit_branch" ] w w'.
Proof.
  rewrite wap_append_unfold.
  destruct (wap_try _ _ _ _ _ w) as [r1 w1] eqn:Ht.
  destruct (wap_cleanup E table_name w1) as [rc w2] eqn:Hc.
  intros H. assert (w' = w2) as -> by (destruct rc; congruence). clear H.
  eapply frame_trans; [|eapply wap_cleanup_frame; [set_solver | exact Hc]].
  unfold wap_try, bind in Ht.
  destruct (wap_write _ _ _ _ _ w) as [[b|e] wa] eqn:Hw.
  2: { simplify_eq. eapply wap_write_frame; [set_solver.. | exact Hw]. }
  eapply frame_trans; [eapply wap_write_frame; [set_solver.. | exact Hw] |].
  apply wap_write_returned in Hw as (-> & _).
  destruct (wap_audit _ _ _ _ wa) as [[passed|e] wb] eqn:Ha.
  2: { simplify_eq. by eapply wap_audit_frame. }
  eapply frame_trans; [by eapply wap_audit_frame |].
  destruct passed.
  - eapply wap_publish_frame; [| | | exact Ht]; set_solver.
  - eapply print_frame. exact Ht.
Qed.
End PhaseFrames.

(** ** What a call leaves alone *)

(** X1.  A call touches no table but the one its SET statement names and
    the one [table_name] names: every other table of the catalog is the
    same after the call, whatever the outcome. *)
Theorem wap_append_other_tables_untouched
    E catalog_name database_name table_name data_df w r w' tid :
  wap_append E catalog_name database_name table_name data_df w = (r, w') ->
  tid <> resolve E (full_table_name_of catalog_name database_name table_name) ->
  tid <> resolve E table_name ->
  catalog w' !! tid = catalog w !! tid.
Proof.
  intros (H & _ & _)%wap_append_frame Hf Ht. apply H. set_solver.
Qed.

(** X1, witness: a second table in the catalog. *)
Lemma wap_append_other_tables_untouched_witness :
  let w := mkWorld
             {[ "glue_catalog.athena_iceberg_test.my_iceberg_table" := iceberg_table [];
                "glue_catalog.athena_iceberg_test.orders" := iceberg_table [[zed]] ]}
             [] [] 0 in
  let o := wap_append (session no_fault) "glue_catalog" "athena_iceberg_test"
             "my_iceberg_table" (transform read_data) w in
  catalog o.2 !! "glue_catalog.athena_iceberg_test.orders" =
  catalog w !! "glue_catalog.athena_iceberg_test.orders".
Proof.
  refine (wap_append_other_tables_untouched (session no_fault)
            "glue_catalog" "athena_iceberg_test" "my_iceberg_table"
            (transform read_data) _ _ _ _ _ _ _).
  - vm_compute. reflexivity.
  - vm_compute. discriminate.
  - vm_compute. discriminate.
Defined.

(** X2.  A call creates and removes no table, and on every table it leaves
    every property other than ['write.wap.enabled'] as it was, whatever the
    outcome. *)
Theorem wap_append_other_properties_untouched
    E catalog_name database_name table_name data_df w r w' :
  wap_append E catalog_name database_name table_name data_df w = (r, w') ->
  (forall tid, is_Some (catalog w' !! tid) <-> is_Some (catalog w !! tid)) /\
  (forall tid key, key <> wap_enabled_key ->
     match props_at w' tid with Some p => p !! key | None => None end =
     match props_at w tid with Some p => p !! key | None => None end).
Proof.
  intros (_ & H & _)%wap_append_frame. split; intros tid.
  - specialize (H tid). unfold props_at in H.
    destruct (catalog w' !! tid), (catalog w !! tid); simplify_eq/=;
      split; intros [? ?]; by eauto.
  - intros key Hk. specialize (H tid).
    destruct (props_at w' tid) as [p'|], (props_at w tid) as [p|];
      simplify_eq/=; try done.
    by rewrite <- (lookup_delete_ne p' wap_enabled_key key),
               <- (lookup_delete_ne p wap_enabled_key key), H.
Qed.

(** X2, witness: the property [table_type] of the table of [main]. *)
Lemma wap_append_other_properties_untouched_witness :
  let o := run no_fault (transform read_data) [] in
  (forall tid, is_Some (catalog o.2 !! tid) <-> is_Some (catalog (world_of []) !! tid)) /\
  (forall tid key, key <> wap_enabled_key ->
     match props_at o.2 tid with Some p => p !! key | None => None end =
     match props_at (world_of []) tid with Some p => p !! key | None => None end).
Proof.
  refine (wap_append_other_properties_untouched (session no_fault)
            "glue_catalog" "athena_iceberg_test" "my_iceberg_table"
            (transform read_data) (world_of []) _ _ _).
  vm_compute. reflexivity.
Defined.

(** X3.  Of the branches of the table, a call can move, create or drop only
    [main] and the audit branch of the run; every other branch, of this
    table and of any other, is where it was, whatever the outcome. *)
Theorem wap_append_other_branches_untouched
    E catalog_name database_name table_name data_df w r w' tid b :
  wap_append E catalog_name database_name table_name data_df w = (r, w') ->
  (tid = resolve E table_name ->
   b <> "main" /\ b <> next_branch_name E w "audit_branch") ->
  branch_at w' tid b = branch_at w tid b.
Proof.
  intros (_ & _ & H)%wap_append_frame Hb. apply H. set_solver.
Qed.

(** X3, witness: a branch left behind by an earlier rejected run. *)
Lemma wap_append_other_branches_untouched_witness :
  let w := mkWorld
             {[ "glue_catalog.athena_iceberg_test.my_iceberg_table" :=
                  mkTable {[ "table_type" := "ICEBERG" ]}
                          {[ "main" := []; "audit_branch_0a1b2c" := [[zed]] ]} ]}
             [] [] 0 in
  let o := wap_append (session no_fault) "glue_catalog" "athena_iceberg_test"
             "my_iceberg_table" (transform read_data) w in
  branch_at o.2 "glue_catalog.athena_iceberg_test.my_iceberg_table"
            "audit_branch_0a1b2c" =
  branch_at w "glue_catalog.athena_iceberg_test.my_iceberg_table"
            "audit_branch_0a1b2c".
Proof.
  refine (wap_append_other_branches_untouched (session no_fault)
            "glue_catalog" "athena_iceberg_test" "my_iceberg_table"
            (transform read_data) _ _ _ _ _ _ _).
  - vm_compute. reflexivity.
  - intros _. split; vm_compute; discriminate.
Defined.

(** ** The fate of [main] *)

Lemma branch_version_at E w tbl b :
  branch_version E w tbl b = branch_at w (resolve E tbl) b.
Proof. reflexivity. Qed.

Lemma sql_call_fast_forward_raised E st cat tbl target source w e w' :
  sql_call_fast_forward E st cat tbl target source w = (Raised e, w') ->
  catalog w' = catalog w.
Proof. run_op. Qed.

Lemma sql_call_fast_forward_returned_no_fault E st cat tbl target source w u w' :
  sql_call_fast_forward E st cat tbl target source w = (Returned u, w') ->
  fault E st = None.
Proof. run_op. Qed.

Lemma sql_drop_branch_raised E st tbl b w e w' :
  sql_drop_branch E st tbl b w = (Raised e, w') -> catalog w' = catalog w.
Proof. run_op. Qed.

(** The three ways the publish phase can end. *)
Lemma wap_publish_cases E catalog_name table_name b w r w' rs vs :
  wap_publish E catalog_name table_name b w = (r, w') ->
  refs_at w (resolve E table_name) = Some rs -> rs !! b = Some vs ->
  (exists e, r = Raised e /\ refs_at w' (resolve E table_name) = Some rs) \/
  (exists e, r = Raised e /\ fault E AtFastForward = None /\
             refs_at w' (resolve E table_name) = Some (<["main" := vs]> rs)) \/
  (r = Returned tt /\ fault E AtFastForward = None /\
   refs_at w' (resolve E table_name) = Some (delete b (<["main" := vs]> rs))).
Proof.
  intros H Hrs Hvs. unfold wap_publish, bind, ret in H.
  repeat step_run H; simplify_eq; unit_values.
  - match goal with
    | Hff : sql_call_fast_forward _ _ _ _ _ _ _ = _ |- _ =>
        pose proof (sql_call_fast_forward_returned_no_fault _ _ _ _ _ _ _ _ _ Hff)
    end.
    destruct r as [[]|e].
    + right; right. learn. to_first_world. simplify_eq. done.
    + right; left. pose proof (sql_drop_branch_raised _ _ _ _ _ _ _ H).
      learn. to_first_world. simplify_eq. eauto.
  - left.
    match goal with
    | Hff : sql_call_fast_forward _ _ _ _ _ _ _ = _ |- _ =>
        pose proof (sql_call_fast_forward_raised _ _ _ _ _ _ _ _ _ Hff)
    end.
    learn. to_first_world. eauto.
Qed.

(** X4.  Whatever happens in a call, [main] either points where it pointed
    before, or has been moved forward by exactly one commit holding the
    payload; and it is moved only if it had no rows and the payload has
    some.  In particular an empty payload is never published, and nothing
    is published onto a table that has rows. *)
Theorem wap_append_main_unchanged_or_advanced
    E catalog_name database_name table_name data_df w r w' :
  wap_append E catalog_name database_name table_name data_df w = (r, w') ->
  branch_version E w' table_name "main" = branch_version E w table_name "main" \/
  exists v0,
    branch_version E w table_name "main" = Some v0 /\
    branch_version E w' table_name "main" = Some (v0 ++ [data_df]) /\
    rows_of v0 = [] /\ data_df <> [].
Proof.
  rewrite wap_append_unfold.
  destruct (wap_try _ _ _ _ _ w) as [r1 w1] eqn:Ht.
  destruct (wap_cleanup E table_name w1) as [rc w2] eqn:Hc.
  intros H. assert (w' = w2) as -> by (destruct rc; congruence). clear H.
  rewrite (wap_cleanup_branches _ _ _ _ _ _ Hc). clear Hc.
  unfold wap_try, bind in Ht.
  destruct (wap_write _ _ _ _ _ w) as [[b|e] wa] eqn:Hw.
  2: { simplify_eq. left. rewrite !branch_version_at.
       pose proof (audit_branch_not_main E w) as Hne.
       eapply (wap_write_frame _ _ _ _ _
                 [resolve E (full_table_name_of catalog_name database_name table_name);
                  resolve E table_name]
                 [next_branch_name E w "audit_branch"]) in Hw as (_ & _ & H);
         [apply H | set_solver..].
       intros _. set_solver. }
  pose proof (audit_branch_not_main E w) as Hne.
  apply wap_write_returned in Hw as (-> & _ & v0 & Hm & Hm1 & Hv).
  destruct (wap_audit _ _ _ _ wa) as [[passed|e] wb] eqn:Ha.
  2: { simplify_eq. left. apply wap_audit_catalog in Ha.
       rewrite (branch_version_catalog _ _ _ _ _ Ha). congruence. }
  pose proof (wap_audit_catalog _ _ _ _ _ _ _ Ha) as Hcat.
  apply wap_audit_returned in Ha as (_ & _ & v & Hv' & Hp).
  assert (v = v0 ++ [data_df]) as -> by congruence.
  destruct passed.
  - symmetry in Hp. apply andb_true_iff in Hp as [Heq Hpos].
    apply Nat.eqb_eq in Heq. apply Nat.ltb_lt in Hpos.
    unfold rows_of in Heq, Hpos. rewrite concat_app in Heq, Hpos.
    simpl in Heq, Hpos. rewrite app_nil_r, length_app in Heq, Hpos.
    assert (rows_of v0 = []) as Hempty.
    { apply length_zero_iff_nil. unfold rows_of. lia. }
    assert (data_df <> []) as Hdf.
    { intros ->. unfold rows_of in Hempty. rewrite Hempty in Hpos.
      simpl in Hpos. lia. }
    rewrite <- (branch_version_catalog _ _ _ _ _ Hcat) in Hm1.
    rewrite <- (branch_version_catalog _ _ _ _ _ Hcat) in Hv.
    rewrite Hm. unfold branch_version in Hm1, Hv |- *.
    destruct (refs_at wb (resolve E table_name)) as [rs|] eqn:Hrs; [|done].
    destruct (wap_publish_cases _ _ _ _ _ _ _ _ _ Ht Hrs Hv)
      as [(e & _ & ->) | [(e & _ & _ & ->) | (_ & _ & ->)]].
    + by left.
    + right. exists v0. by rewrite lookup_insert_eq.
    + right. exists v0. by rewrite lookup_delete_ne, lookup_insert_eq.
  - left. apply print_delta in Ht as (_ & _ & Hcat').
    rewrite (branch_version_catalog _ _ _ _ _ Hcat').
    rewrite (branch_version_catalog _ _ _ _ _ Hcat). congruence.
Qed.

(** X4, witness: the payload of [main] on an empty table. *)
Lemma wap_append_main_unchanged_or_advanced_witness :
  let o := run no_fault (transform read_data) [] in
  branch_version (session no_fault) o.2 "my_iceberg_table" "main" =
    branch_version (session no_fault) (world_of []) "my_iceberg_table" "main" \/
  exists v0,
    branch_version (session no_fault) (world_of []) "my_iceberg_table" "main"
      = Some v0 /\
    branch_version (session no_fault) o.2 "my_iceberg_table" "main"
      = Some (v0 ++ [transform read_data]) /\
    rows_of v0 = [] /\ transform read_data <> [].
Proof.
  refine (wap_append_main_unchanged_or_advanced (session no_fault)
            "glue_catalog" "athena_iceberg_test" "my_iceberg_table"
            (transform read_data) (world_of []) _ _ _).
  vm_compute. reflexivity.
Defined.

(** ** Progress: what makes each operation succeed *)

Ltac run_ok :=
  intros; unfold_ops; unfold refs_at in *; cbn;
  repeat match goal with
         | H : fault _ _ = None |- _ => rewrite H; clear H; cbn
         | H : is_Some (catalog _ !! _) |- _ => destruct H as [? H]
         | H : is_Some (refs <$> catalog _ !! _) |- _ => destruct H as [? H]
         | H : refs <$> catalog _ !! _ = Some _ |- _ =>
             apply fmap_Some in H as (? & ? & ->)
         | H : catalog _ !! _ = Some _ |- _ => rewrite H; clear H; cbn
         | H : refs _ !! _ = _ |- _ => rewrite H; clear H; cbn
         | H : is_ancestor _ _ = true |- _ => rewrite H; clear H; cbn
         end;
  eauto.

Section Progress.
Context (E : Env).

Lemma sql_set_tblproperty_ok st tbl key value w :
  fault E st = None -> is_Some (refs_at w (resolve E tbl)) ->
  exists w', sql_set_tblproperty E st tbl key value w = (Returned tt, w').
Proof. run_ok. Qed.

Lemma sql_unset_tblproperty_ok st tbl key w :
  fault E st = None -> is_Some (refs_at w (resolve E tbl)) ->
  exists w', sql_unset_tblproperty E st tbl key w = (Returned tt, w').
Proof. run_ok. Qed.

Lemma sql_select_refs_ok st tbl w :
  fault E st = None -> is_Some (refs_at w (resolve E tbl)) ->
  exists names w', sql_select_refs E st tbl w = (Returned names, w').
Proof. run_ok. Qed.

Lemma sql_drop_branch_if_exists_ok st tbl b w :
  fault E st = None -> is_Some (refs_at w (resolve E tbl)) ->
  exists w', sql_drop_branch_if_exists E st tbl b w = (Returned tt, w').
Proof. run_ok. Qed.

Lemma sql_create_branch_ok st tbl b w rs v :
  fault E st = None -> refs_at w (resolve E tbl) = Some rs ->
  rs !! b = None -> rs !! "main" = Some v ->
  exists w', sql_create_branch E st tbl b w = (Returned tt, w').
Proof. run_ok. Qed.

Lemma df_write_append_ok st df b tbl w rs v :
  fault E st = None -> refs_at w (resolve E tbl) = Some rs -> rs !! b = Some v ->
  exists w', df_write_append E st df b tbl w = (Returned tt, w').
Proof. run_ok. Qed.

Lemma spark_read_load_ok st b tbl w rs v :
  fault E st = None -> refs_at w (resolve E tbl) = Some rs -> rs !! b = Some v ->
  exists w', spark_read_load E st b tbl w = (Returned (mkScan tbl b), w').
Proof. run_ok. Qed.

Lemma scan_count_ok st tbl b w rs v :
  fault E st = None -> refs_at w (resolve E tbl) = Some rs -> rs !! b = Some v ->
  exists w', scan_count E st (mkScan tbl b) w = (Returned (length (rows_of v)), w').
Proof. run_ok. Qed.

Lemma sql_call_fast_forward_ok st cat tbl target source w rs vt vs :
  fault E st = None -> refs_at w (resolve E tbl) = Some rs ->
  rs !! target = Some vt -> rs !! source = Some vs -> is_ancestor vt vs = true ->
  exists w', sql_call_fast_forward E st cat tbl target source w = (Returned tt, w').
Proof. run_ok. Qed.

Lemma sql_drop_branch_ok st tbl b w rs v :
  fault E st = None -> refs_at w (resolve E tbl) = Some rs -> rs !! b = Some v ->
  exists w', sql_drop_branch E st tbl b w = (Returned tt, w').
Proof. run_ok. Qed.
End Progress.

Lemma is_ancestor_app v l : is_ancestor v (v ++ l) = true.
Proof. induction v as [|x v IH]; [done|]. simpl. by rewrite decide_True. Qed.

Lemma refs_at_catalog w w' tid :
  catalog w' = catalog w -> refs_at w' tid = refs_at w tid.
Proof. unfold refs_at. by intros ->. Qed.

Section RunsWithoutFaults.
Context (E : Env) (catalog_name database_name table_name : string).
Context (data_df : list Row).
Hypothesis no_faults : forall st, fault E st = None.

Lemma wap_write_ok w v0 :
  is_Some (refs_at w (resolve E (full_table_name_of catalog_name database_name
                                    table_name))) ->
  branch_version E w table_name "main" = Some v0 ->
  exists b w1,
    wap_write E catalog_name database_name table_name data_df w = (Returned b, w1).
Proof.
  intros Hfull Hm. unfold wap_write, wap_branch_off, bind, ret.
  destruct (sql_set_tblproperty_ok E AtSetProperty _ wap_enabled_key "true" w
              (no_faults _) Hfull) as [w0 H0].
  rewrite H0. cbv beta iota.
  pose proof (fun tid => sql_set_tblproperty_refs _ _ _ _ _ _ _ _ tid H0) as Hr0.
  rewrite <- Hr0 in Hfull.
  destruct (sql_select_refs_ok E AtShowRefs _ w0 (no_faults _) Hfull)
    as (names & w2 & H2).
  rewrite H2. cbv beta iota.
  apply sql_select_refs_delta in H2 as [_ Hc2].
  destruct (show names w2) as [r3 w3] eqn:H3.
  apply show_delta in H3 as (-> & _ & Hc3). cbv beta iota.
  destruct (generate_branch_name E "audit_branch" w3) as [r4 w4] eqn:H4.
  apply generate_branch_name_delta in H4 as (-> & _ & Hc4). cbv beta iota.
  set (b := next_branch_name E w3 "audit_branch").
  assert (b <> "main") as Hne by apply audit_branch_not_main.
  unfold branch_version in Hm.
  destruct (refs_at w (resolve E table_name)) as [rs|] eqn:Hrs; [|done].
  assert (refs_at w4 (resolve E table_name) = Some rs) as Hrs4.
  { rewrite (refs_at_catalog _ _ _ Hc4), (refs_at_catalog _ _ _ Hc3),
      (refs_at_catalog _ _ _ Hc2), Hr0. done. }
  destruct (sql_drop_branch_if_exists_ok E AtDropIfExists table_name b w4
              (no_faults _)) as [w5 H5]; [by rewrite Hrs4|].
  rewrite H5. cbv beta iota.
  apply sql_drop_branch_if_exists_returned in H5 as (rs' & Hrs' & Hrs5).
  assert (rs' = rs) as -> by congruence.
  destruct (sql_create_branch_ok E AtCreateBranch table_name b w5 _ v0
              (no_faults _) Hrs5) as [w6 H6];
    [apply lookup_delete_eq | by rewrite lookup_delete_ne |].
  rewrite H6. cbv beta iota.
  apply sql_create_branch_returned in H6 as (rs6 & v & Hrs6 & Hv & Hrs6').
  assert (rs6 = delete b rs) as -> by congruence.
  destruct (df_write_append_ok E AtWrite data_df b table_name w6 _ v
              (no_faults _) Hrs6') as [w7 H7]; [apply lookup_insert_eq|].
  rewrite H7. cbv beta iota. eauto.
Qed.

Lemma wap_audit_ok b w v :
  branch_version E w table_name b = Some v ->
  exists w2,
    wap_audit E table_name data_df b w =
    (Returned (Nat.eqb (length (rows_of v)) (length data_df) &&
               Nat.ltb 0 (length (rows_of v))), w2).
Proof.
  intros Hv. unfold wap_audit, bind, ret.
  unfold branch_version in Hv.
  destruct (refs_at w (resolve E table_name)) as [rs|] eqn:Hrs; [|done].
  destruct (spark_read_load_ok E AtLoad b table_name w _ _ (no_faults _) Hrs Hv)
    as [w1 H1].
  rewrite H1. cbv beta iota.
  apply spark_read_load_delta in H1 as (_ & Hc1 & _).
  rewrite <- (refs_at_catalog _ _ _ Hc1) in Hrs.
  destruct (scan_count_ok E AtCountBranch1 table_name b w1 _ _ (no_faults _) Hrs Hv)
    as [w2 H2].
  rewrite H2. cbv beta iota.
  apply scan_count_delta in H2 as (_ & Hc2).
  rewrite <- (refs_at_catalog _ _ _ Hc2) in Hrs.
  unfold df_count. rewrite no_faults.
  destruct (scan_count_ok E AtCountBranch2 table_name b w2 _ _ (no_faults _) Hrs Hv)
    as [w3 H3].
  rewrite H3. eauto.
Qed.

Lemma wap_publish_ok b w rs vm vs :
  refs_at w (resolve E table_name) = Some rs ->
  rs !! "main" = Some vm -> rs !! b = Some vs -> is_ancestor vm vs = true ->
  exists w3, wap_publish E catalog_name table_name b w = (Returned tt, w3).
Proof.
  intros Hrs Hm Hb Hanc. unfold wap_publish, bind.
  destruct (print msg_passed w) as [r0 w0] eqn:H0.
  apply print_delta in H0 as (-> & _ & Hc0). cbv beta iota.
  rewrite <- (refs_at_catalog _ _ _ Hc0) in Hrs.
  destruct (sql_call_fast_forward_ok E AtFastForward catalog_name table_name
              "main" b w0 _ _ _ (no_faults _) Hrs Hm Hb Hanc) as [w1 H1].
  rewrite H1. cbv beta iota.
  apply sql_call_fast_forward_returned in H1 as (rs1 & vs1 & Hrs1 & Hvs1 & Hrs1').
  assert (rs1 = rs) as -> by congruence.
  apply (sql_drop_branch_ok E AtDropBranch table_name b w1 _ vs1 (no_faults _) Hrs1').
  destruct (decide (b = "main")) as [->|]; by simplify_map_eq.
Qed.
End RunsWithoutFaults.

(** The two checks of the audit, on an audit branch made of [main]'s
    commits and the payload: they pass exactly on a first load. *)
Lemma audit_checks_first_load (v0 : list (list Row)) (data_df : list Row) :
  Nat.eqb (length (rows_of (v0 ++ [data_df]))) (length data_df) &&
  Nat.ltb 0 (length (rows_of (v0 ++ [data_df]))) = true <->
  rows_of v0 = [] /\ data_df <> [].
Proof.
  unfold rows_of. rewrite concat_app. simpl. rewrite app_nil_r, length_app.
  rewrite andb_true_iff, Nat.eqb_eq, Nat.ltb_lt. split.
  - intros [Heq Hpos]. split.
    + apply length_zero_iff_nil. lia.
    + intros ->. simpl in *. lia.
  - intros [-> Hdf]. simpl. split; [done|].
    destruct data_df; [done | simpl; lia].
Qed.

Lemma frame_tables_exist touched tid0 allowed w w' tid :
  frame touched tid0 allowed w w' ->
  is_Some (refs_at w' tid) <-> is_Some (refs_at w tid).
Proof.
  intros (_ & H & _). specialize (H tid). unfold props_at, refs_at in *.
  destruct (catalog w' !! tid), (catalog w !! tid); simplify_eq/=;
    split; intros [? ?]; by eauto.
Qed.

Section FaultFree.
Context (E : Env) (catalog_name database_name table_name : string).
Context (data_df : list Row).
Hypothesis no_faults : forall st, fault E st = None.

(** A run in which the service never fails, on a table that has a [main]
    branch: it returns, with the property unset, having published or
    rejected according to the two checks. *)
Lemma wap_append_no_fault w v0 :
  is_Some (refs_at w (resolve E (full_table_name_of catalog_name database_name
                                    table_name))) ->
  branch_version E w table_name "main" = Some v0 ->
  exists w' names,
    wap_append E catalog_name database_name table_name data_df w = (Returned tt, w') /\
    property E w' table_name wap_enabled_key = None /\
    ((rows_of v0 = [] /\ data_df <> [] /\
      branch_version E w' table_name "main" = Some (v0 ++ [data_df]) /\
      branch_version E w' table_name (next_branch_name E w "audit_branch") = None /\
      stdout w' = stdout w ++ [Shown names; Printed msg_passed])
     \/
     ((rows_of v0 <> [] \/ data_df = []) /\
      branch_version E w' table_name "main" = Some v0 /\
      branch_version E w' table_name (next_branch_name E w "audit_branch")
        = Some (v0 ++ [data_df]) /\
      stdout w' = stdout w ++ [Shown names; Printed msg_failed])).
Proof.
  intros Hfull Hm.
  destruct (wap_write_ok E catalog_name database_name table_name data_df
              no_faults w v0 Hfull Hm) as (b & w1 & Hw).
  pose proof (wap_write_returned _ _ _ _ _ _ _ _ Hw)
    as (-> & [names (_ & Ho1 & _)] & v0' & Hm' & Hm1 & Hv).
  assert (v0' = v0) as -> by congruence. clear Hm'.
  set (b := next_branch_name E w "audit_branch") in *.
  assert (b <> "main") as Hne by apply audit_branch_not_main.
  destruct (wap_audit_ok E table_name data_df no_faults b w1 _ Hv) as [w2 Ha].
  pose proof (wap_audit_catalog _ _ _ _ _ _ _ Ha) as Hc2.
  pose proof (wap_audit_returned _ _ _ _ _ _ _ Ha) as (_ & (_ & Ho2 & _) & _).
  rewrite app_nil_r in Ho2.
  rewrite <- (branch_version_catalog _ _ _ _ _ Hc2) in Hm1.
  rewrite <- (branch_version_catalog _ _ _ _ _ Hc2) in Hv.
  assert (forall w3,
             catalog w3 !! resolve E table_name <> None ->
             exists w4, wap_cleanup E table_name w3 = (Returned tt, w4)) as Hclean.
  { intros w3 Hex. apply sql_unset_tblproperty_ok; [done|].
    unfold refs_at. destruct (catalog w3 !! resolve E table_name); [eauto | done]. }
  rewrite wap_append_unfold. unfold wap_try, bind. rewrite Hw. cbv beta iota.
  rewrite Ha. cbv beta iota.
  destruct (Nat.eqb _ _ && Nat.ltb _ _) eqn:Hp.
  - apply audit_checks_first_load in Hp as [Hempty Hdf].
    unfold branch_version in Hm1, Hv.
    destruct (refs_at w2 (resolve E table_name)) as [rs|] eqn:Hrs; [|done].
    destruct (wap_publish_ok E catalog_name table_name no_faults b w2 rs _ _
                Hrs Hm1 Hv (is_ancestor_app _ _)) as [w3 Hpub].
    rewrite Hpub.
    apply wap_publish_returned in Hpub as ((_ & Ho3 & _) & rs' & vs & Hrs' & Hvs & Hrs3).
    assert (rs' = rs) as -> by congruence.
    assert (vs = v0 ++ [data_df]) as -> by congruence.
    destruct (Hclean w3) as [w4 Hc].
    { unfold refs_at in Hrs3. by destruct (catalog w3 !! resolve E table_name). }
    rewrite Hc. exists w4, names. split; [done|].
    split; [by eapply sql_unset_tblproperty_property|].
    left. rewrite !(wap_cleanup_branches _ _ _ _ _ _ Hc).
    apply sql_unset_tblproperty_delta in Hc as (_ & Ho4 & _).
    unfold branch_version. rewrite Hrs3.
    split_and!; [done | done | by simplify_map_eq | by simplify_map_eq |].
    rewrite Ho4, Ho3, Ho2, Ho1, app_nil_r, <- app_assoc. done.
  - assert (rows_of v0 <> [] \/ data_df = []) as Hcond.
    { destruct (decide (rows_of v0 = [])) as [Hempty|]; [|by left].
      destruct (decide (data_df = [])) as [|Hdf]; [by right|].
      pose proof (proj2 (audit_checks_first_load v0 data_df) (conj Hempty Hdf)).
      congruence. }
    destruct (wap_dont_publish w2) as [r3 w3] eqn:Hpr.
    apply print_delta in Hpr as (-> & (_ & Ho3 & _) & Hc3).
    destruct (Hclean w3) as [w4 Hc].
    { rewrite Hc3. unfold branch_version, refs_at in Hm1.
      by destruct (catalog w2 !! resolve E table_name). }
    rewrite Hc. exists w4, names. split; [done|].
    split; [by eapply sql_unset_tblproperty_property|].
    right. rewrite !(wap_cleanup_branches _ _ _ _ _ _ Hc).
    rewrite !(branch_version_catalog _ _ _ _ _ Hc3).
    apply sql_unset_tblproperty_delta in Hc as (_ & Ho4 & _).
    split_and!; [done | done | done |].
    rewrite Ho4, Ho3, Ho2, Ho1, app_nil_r, <- app_assoc. done.
Qed.
End FaultFree.

(** ** Runs in which the service never fails *)

(** X5.  A first load is published: when no call to the service fails, the
    table the SET names exists, [main] has no rows and the payload has
    some, the call returns [None]; [main] then holds exactly the payload,
    the audit branch is gone, the property is unset, and the last line
    printed is the passed message. *)
Theorem wap_append_publishes_first_load
    E catalog_name database_name table_name data_df w v0 :
  (forall st, fault E st = None) ->
  is_Some (refs_at w (resolve E (full_table_name_of catalog_name database_name
                                    table_name))) ->
  branch_version E w table_name "main" = Some v0 ->
  rows_of v0 = [] -> data_df <> [] ->
  exists w',
    wap_append E catalog_name database_name table_name data_df w = (Returned tt, w') /\
    branch_version E w' table_name "main" = Some (v0 ++ [data_df]) /\
    rows_of (v0 ++ [data_df]) = data_df /\
    branch_version E w' table_name (next_branch_name E w "audit_branch") = None /\
    property E w' table_name wap_enabled_key = None /\
    last (stdout w') = Some (Printed msg_passed).
Proof.
  intros Hnf Hfull Hm Hempty Hdf.
  destruct (wap_append_no_fault E catalog_name database_name table_name data_df
              Hnf w v0 Hfull Hm) as (w' & names & Hrun & Hprop & Hcase).
  exists w'. destruct Hcase as [(_ & _ & Hmain & Hb & Hout) | ([?|?] & _)]; [|done..].
  split_and!; try done.
  - unfold rows_of in *. rewrite concat_app, Hempty. simpl. by rewrite app_nil_r.
  - rewrite Hout.
    change [Shown names; Printed msg_passed]
      with ([Shown names] ++ [Printed msg_passed]).
    rewrite app_assoc. apply last_snoc.
Qed.

(** X5, witness: the payload of [main] on the empty table of [main]. *)
Lemma wap_append_publishes_first_load_witness :
  exists w',
    run no_fault (transform read_data) [] = (Returned tt, w') /\
    branch_version (session no_fault) w' "my_iceberg_table" "main"
      = Some ([] ++ [transform read_data]) /\
    rows_of ([] ++ [transform read_data]) = transform read_data /\
    branch_version (session no_fault) w' "my_iceberg_table"
      (next_branch_name (session no_fault) (world_of []) "audit_branch") = None /\
    property (session no_fault) w' "my_iceberg_table" wap_enabled_key = None /\
    last (stdout w') = Some (Printed msg_passed).
Proof.
  refine (wap_append_publishes_first_load (session no_fault)
            "glue_catalog" "athena_iceberg_test" "my_iceberg_table"
            (transform read_data) (world_of []) [] _ _ _ _ _).
  - reflexivity.
  - vm_compute. eauto.
  - vm_compute. reflexivity.
  - reflexivity.
  - discriminate.
Defined.

(** X6.  Anything but a first load is rejected without an error: when no
    call to the service fails and [main] has rows already, or the payload
    is empty, the call returns [None]; [main] is where it was, the audit
    branch is kept with [main]'s commits and the payload, the property is
    unset, and the last line printed is the failed message. *)
Theorem wap_append_rejects_later_loads
    E catalog_name database_name table_name data_df w v0 :
  (forall st, fault E st = None) ->
  is_Some (refs_at w (resolve E (full_table_name_of catalog_name database_name
                                    table_name))) ->
  branch_version E w table_name "main" = Some v0 ->
  rows_of v0 <> [] \/ data_df = [] ->
  exists w',
    wap_append E catalog_name database_name table_name data_df w = (Returned tt, w') /\
    branch_version E w' table_name "main" = Some v0 /\
    branch_version E w' table_name (next_branch_name E w "audit_branch")
      = Some (v0 ++ [data_df]) /\
    property E w' table_name wap_enabled_key = None /\
    last (stdout w') = Some (Printed msg_failed).
Proof.
  intros Hnf Hfull Hm Hcond.
  destruct (wap_append_no_fault E catalog_name database_name table_name data_df
              Hnf w v0 Hfull Hm) as (w' & names & Hrun & Hprop & Hcase).
  exists w'. destruct Hcase as [(Hempty & Hdf & _) | (_ & Hmain & Hb & Hout)].
  { by destruct Hcond. }
  split_and!; try done.
  rewrite Hout.
  change [Shown names; Printed msg_failed]
    with ([Shown names] ++ [Printed msg_failed]).
  rewrite app_assoc. apply last_snoc.
Qed.

(** X6, witness: the payload of [main] on a table that holds one row. *)
Lemma wap_append_rejects_later_loads_witness :
  exists w',
    run no_fault (transform read_data) [[zed]] = (Returned tt, w') /\
    branch_version (session no_fault) w' "my_iceberg_table" "main" = Some [[zed]] /\
    branch_version (session no_fault) w' "my_iceberg_table"
      (next_branch_name (session no_fault) (world_of [[zed]]) "audit_branch")
      = Some ([[zed]] ++ [transform read_data]) /\
    property (session no_fault) w' "my_iceberg_table" wap_enabled_key = None /\
    last (stdout w') = Some (Printed msg_failed).
Proof.
  refine (wap_append_rejects_later_loads (session no_fault)
            "glue_catalog" "athena_iceberg_test" "my_iceberg_table"
            (transform read_data) (world_of [[zed]]) [[zed]] _ _ _ _).
  - reflexivity.
  - vm_compute. eauto.
  - vm_compute. reflexivity.
  - left. discriminate.
Defined.

(** X7.  Two calls in a row on an empty table, the service never failing:
    the first publishes its payload, and the second, whatever its payload,
    is rejected; [main] keeps the first payload, and the second audit
    branch is left holding both. *)
Theorem wap_append_twice
    E catalog_name database_name table_name df1 df2 w v0 :
  (forall st, fault E st = None) ->
  is_Some (refs_at w (resolve E (full_table_name_of catalog_name database_name
                                    table_name))) ->
  branch_version E w table_name "main" = Some v0 ->
  rows_of v0 = [] -> df1 <> [] ->
  exists w' w'',
    wap_append E catalog_name database_name table_name df1 w = (Returned tt, w') /\
    wap_append E catalog_name database_name table_name df2 w' = (Returned tt, w'') /\
    branch_version E w'' table_name "main" = Some (v0 ++ [df1]) /\
    rows_of (v0 ++ [df1]) = df1 /\
    branch_version E w'' table_name (next_branch_name E w' "audit_branch")
      = Some ((v0 ++ [df1]) ++ [df2]).
Proof.
  intros Hnf Hfull Hm Hempty Hdf.
  destruct (wap_append_no_fault E catalog_name database_name table_name df1
              Hnf w v0 Hfull Hm) as (w' & names & Hrun & _ & Hcase).
  destruct Hcase as [(_ & _ & Hmain & _) | ([?|?] & _)]; [|done..].
  assert (rows_of (v0 ++ [df1]) = df1) as Hrows.
  { unfold rows_of in *. rewrite concat_app, Hempty. simpl. by rewrite app_nil_r. }
  pose proof (wap_append_frame _ _ _ _ _ _ _ _ Hrun) as Hfr.
  rewrite <- (frame_tables_exist _ _ _ _ _ _ Hfr) in Hfull.
  destruct (wap_append_no_fault E catalog_name database_name table_name df2
              Hnf w' _ Hfull Hmain) as (w'' & names' & Hrun' & _ & Hcase').
  exists w', w''.
  destruct Hcase' as [(Hne & _) | (_ & Hmain' & Hb' & _)]; [congruence|].
  done.
Qed.

(** X7, witness: the payload of [main], twice. *)
Lemma wap_append_twice_witness :
  exists w' w'',
    run no_fault (transform read_data) [] = (Returned tt, w') /\
    wap_append (session no_fault) "glue_catalog" "athena_iceberg_test"
      "my_iceberg_table" (transform read_data) w' = (Returned tt, w'') /\
    branch_version (session no_fault) w'' "my_iceberg_table" "main"
      = Some ([] ++ [transform read_data]) /\
    rows_of ([] ++ [transform read_data]) = transform read_data /\
    branch_version (session no_fault) w'' "my_iceberg_table"
      (next_branch_name (session no_fault) w' "audit_branch")
      = Some (([] ++ [transform read_data]) ++ [transform read_data]).
Proof.
  refine (wap_append_twice (session no_fault)
            "glue_catalog" "athena_iceberg_test" "my_iceberg_table"
            (transform read_data) (transform read_data) (world_of []) [] _ _ _ _ _).
  - reflexivity.
  - vm_compute. eauto.
  - vm_compute. reflexivity.
  - reflexivity.
  - discriminate.
Defined.

(** ** A publish that fails *)

Lemma wap_publish_raised_main E catalog_name table_name b w e w' rs vm vs :
  wap_publish E catalog_name table_name b w = (Raised e, w') ->
  refs_at w (resolve E table_name) = Some rs ->
  rs !! "main" = Some vm -> rs !! b = Some vs -> is_ancestor vm vs = true ->
  refs_at w' (resolve E table_name) =
    Some match fault E AtFastForward with
         | Some _ => rs
         | None => <["main" := vs]> rs
         end.
Proof.
  intros H Hrs Hm Hb Hanc. unfold wap_publish, bind in H.
  destruct (print msg_passed w) as [r0 w0] eqn:H0.
  apply print_delta in H0 as (-> & _ & Hc0). cbv beta iota in H.
  rewrite <- (refs_at_catalog _ _ _ Hc0) in Hrs.
  destruct (sql_call_fast_forward E AtFastForward catalog_name table_name "main" b w0)
    as [[[]|e1] w1] eqn:H1; cbv beta iota in H.
  - rewrite (sql_call_fast_forward_returned_no_fault _ _ _ _ _ _ _ _ _ H1).
    apply sql_call_fast_forward_returned in H1 as (rs1 & vs1 & Hrs1 & Hvs1 & Hrs1').
    assert (rs1 = rs) as -> by congruence.
    assert (vs1 = vs) as -> by congruence.
    by rewrite (refs_at_catalog _ _ _ (sql_drop_branch_raised _ _ _ _ _ _ _ H)).
  - assert (w' = w1) as -> by congruence.
    destruct (fault E AtFastForward) eqn:Hf.
    + by rewrite (refs_at_catalog _ _ _
                    (sql_call_fast_forward_raised _ _ _ _ _ _ _ _ _ H1)).
    + destruct (sql_call_fast_forward_ok E AtFastForward catalog_name table_name
                  "main" b w0 _ _ _ Hf Hrs Hm Hb Hanc) as [w1' H1'].
      congruence.
Qed.

(** X8.  When the audit has passed and the publish phase then raises, be it
    the fast-forward or the drop that failed, the audit branch is not lost:
    it still holds [main]'s commits and the payload when the call exits,
    and the call ends in an error.  [main] is where it was when the service
    failed the fast-forward; when it did not, the fast-forward has taken
    place (it is the drop that failed) and [main] is at the audit branch's
    version. *)
Theorem wap_append_failed_publish_keeps_audit_branch
    E catalog_name database_name table_name data_df w b w1 w2 e w3 r w' :
  wap_write E catalog_name database_name table_name data_df w = (Returned b, w1) ->
  wap_audit E table_name data_df b w1 = (Returned true, w2) ->
  wap_publish E catalog_name table_name b w2 = (Raised e, w3) ->
  wap_append E catalog_name database_name table_name data_df w = (r, w') ->
  (exists e', r = Raised e') /\
  exists v0,
    branch_version E w table_name "main" = Some v0 /\
    branch_version E w' table_name b = Some (v0 ++ [data_df]) /\
    (forall cls, fault E AtFastForward = Some cls ->
       branch_version E w' table_name "main" = Some v0) /\
    (fault E AtFastForward = None ->
       branch_version E w' table_name "main" = Some (v0 ++ [data_df])).
Proof.
  intros Hw Ha Hp. rewrite wap_append_unfold. unfold wap_try, bind.
  rewrite Hw. cbv beta iota. rewrite Ha. cbv beta iota. rewrite Hp.
  destruct (wap_cleanup E table_name w3) as [rc w4] eqn:Hc.
  intros H. assert (w' = w4) as -> by (destruct rc; congruence).
  split; [destruct rc; simplify_eq; eauto|]. clear H.
  pose proof (audit_branch_not_main E w) as Hne.
  apply wap_write_returned in Hw as (Hb & _ & v0 & Hm & Hm1 & Hv).
  rewrite <- Hb in Hne. clear Hb.
  apply wap_audit_catalog in Ha.
  rewrite <- (branch_version_catalog _ _ _ _ _ Ha) in Hm1.
  rewrite <- (branch_version_catalog _ _ _ _ _ Ha) in Hv.
  exists v0. split; [done|].
  rewrite !(wap_cleanup_branches _ _ _ _ _ _ Hc).
  unfold branch_version in Hm1, Hv |- *.
  destruct (refs_at w2 (resolve E table_name)) as [rs|] eqn:Hrs; [|done].
  rewrite (wap_publish_raised_main _ _ _ _ _ _ _ _ _ _ Hp Hrs Hm1 Hv
             (is_ancestor_app _ _)).
  destruct (fault E AtFastForward) as [cls0|]; split_and!; try done.
  - by rewrite lookup_insert_ne.
  - intros _. by rewrite lookup_insert_eq.
Qed.

(** X8, witness: the service fails the fast-forward; the service fails the
    drop that follows the fast-forward. *)
Lemma wap_append_failed_publish_keeps_audit_branch_witness :
  (let faults := fail_at AtFastForward "Py4JJavaError" in
   let o := run faults (transform read_data) [] in
   (exists e', o.1 = Raised e') /\
   exists v0,
     branch_version (session faults) (world_of []) "my_iceberg_table" "main"
       = Some v0 /\
     branch_version (session faults) o.2 "my_iceberg_table" "audit_branch_3f2a9c"
       = Some (v0 ++ [transform read_data]) /\
     branch_version (session faults) o.2 "my_iceberg_table" "main" = Some v0) /\
  (let faults := fail_at AtDropBranch "Py4JJavaError" in
   let o := run faults (transform read_data) [] in
   (exists e', o.1 = Raised e') /\
   exists v0,
     branch_version (session faults) (world_of []) "my_iceberg_table" "main"
       = Some v0 /\
     branch_version (session faults) o.2 "my_iceberg_table" "audit_branch_3f2a9c"
       = Some (v0 ++ [transform read_data]) /\
     branch_version (session faults) o.2 "my_iceberg_table" "main"
       = Some (v0 ++ [transform read_data])).
Proof.
  split.
  - destruct (wap_append_failed_publish_keeps_audit_branch
            (session (fail_at AtFastForward "Py4JJavaError"))
            "glue_catalog" "athena_iceberg_test" "my_iceberg_table"
            (transform read_data) (world_of []) "audit_branch_3f2a9c"
            (wap_write (session (fail_at AtFastForward "Py4JJavaError"))
               "glue_catalog" "athena_iceberg_test" "my_iceberg_table"
               (transform read_data) (world_of [])).2
            (wap_audit (session (fail_at AtFastForward "Py4JJavaError"))
               "my_iceberg_table" (transform read_data) "audit_branch_3f2a9c"
               (wap_write (session (fail_at AtFastForward "Py4JJavaError"))
                  "glue_catalog" "athena_iceberg_test" "my_iceberg_table"
                  (transform read_data) (world_of [])).2).2
            (Exn "Py4JJavaError" None)
            (wap_publish (session (fail_at AtFastForward "Py4JJavaError"))
               "glue_catalog" "my_iceberg_table" "audit_branch_3f2a9c"
               (wap_audit (session (fail_at AtFastForward "Py4JJavaError"))
                  "my_iceberg_table" (transform read_data) "audit_branch_3f2a9c"
                  (wap_write (session (fail_at AtFastForward "Py4JJavaError"))
                     "glue_catalog" "athena_iceberg_test" "my_iceberg_table"
                     (transform read_data) (world_of [])).2).2).2
            (run (fail_at AtFastForward "Py4JJavaError") (transform read_data) []).1
            (run (fail_at AtFastForward "Py4JJavaError") (transform read_data) []).2)
      as (Hraised & v0 & Hm & Hb & Hfailed & _).
    + vm_compute. reflexivity.
    + vm_compute. reflexivity.
    + vm_compute. reflexivity.
    + vm_compute. reflexivity.
    + split; [exact Hraised|]. exists v0.
      split_and!; [exact Hm | exact Hb |].
      apply (Hfailed "Py4JJavaError"). reflexivity.
  - destruct (wap_append_failed_publish_keeps_audit_branch
            (session (fail_at AtDropBranch "Py4JJavaError"))
            "glue_catalog" "athena_iceberg_test" "my_iceberg_table"
            (transform read_data) (world_of []) "audit_branch_3f2a9c"
            (wap_write (session (fail_at AtDropBranch "Py4JJavaError"))
               "glue_catalog" "athena_iceberg_test" "my_iceberg_table"
               (transform read_data) (world_of [])).2
            (wap_audit (session (fail_at AtDropBranch "Py4JJavaError"))
               "my_iceberg_table" (transform read_data) "audit_branch_3f2a9c"
               (wap_write (session (fail_at AtDropBranch "Py4JJavaError"))
                  "glue_catalog" "athena_iceberg_test" "my_iceberg_table"
                  (transform read_data) (world_of [])).2).2
            (Exn "Py4JJavaError" None)
            (wap_publish (session (fail_at AtDropBranch "Py4JJavaError"))
               "glue_catalog" "my_iceberg_table" "audit_branch_3f2a9c"
               (wap_audit (session (fail_at AtDropBranch "Py4JJavaError"))
                  "my_iceberg_table" (transform read_data) "audit_branch_3f2a9c"
                  (wap_write (session (fail_at AtDropBranch "Py4JJavaError"))
                     "glue_catalog" "athena_iceberg_test" "my_iceberg_table"
                     (transform read_data) (world_of [])).2).2).2
            (run (fail_at AtDropBranch "Py4JJavaError") (transform read_data) []).1
            (run (fail_at AtDropBranch "Py4JJavaError") (transform read_data) []).2)
      as (Hraised & v0 & Hm & Hb & _ & Hmoved).
    + vm_compute. reflexivity.
    + vm_compute. reflexivity.
    + vm_compute. reflexivity.
    + vm_compute. reflexivity.
    + split; [exact Hraised|]. exists v0.
      split_and!; [exact Hm | exact Hb |].
      apply Hmoved. reflexivity.
Defined.

(** ** The table properties *)

(** X9.  The properties of the table are restored exactly: if
    ['write.wap.enabled'] was not set on the table [table_name] names when
    the call started and the service does not fail the cleanup statement,
    the table has, when the call exits, the very properties it had when the
    call started, whatever happened in between. *)
Theorem wap_append_restores_properties
    E catalog_name database_name table_name data_df w t r w' :
  catalog w !! resolve E table_name = Some t ->
  tblproperties t !! wap_enabled_key = None ->
  fault E AtUnsetProperty = None ->
  wap_append E catalog_name database_name table_name data_df w = (r, w') ->
  props_at w' (resolve E table_name) = Some (tblproperties t).
Proof.
  intros Ht Hkey Hf Hrun.
  pose proof (wap_append_frame _ _ _ _ _ _ _ _ Hrun) as (_ & Hprops & _).
  specialize (Hprops (resolve E table_name)).
  assert (property E w' table_name wap_enabled_key = None) as Hunset.
  { rewrite wap_append_unfold in Hrun.
    destruct (wap_try _ _ _ _ _ w) as [r1 w1].
    destruct (wap_cleanup E table_name w1) as [rc w2] eqn:Hc.
    assert (w' = w2) as -> by (destruct rc; congruence).
    by eapply sql_unset_tblproperty_property. }
  unfold property, props_at in *. rewrite Ht in Hprops. simpl in Hprops.
  destruct (catalog w' !! resolve E table_name) as [t'|]; simplify_eq/=.
  f_equal. rewrite <- (delete_id _ _ Hunset), <- (delete_id _ _ Hkey). done.
Qed.

(** X9, witness: a run in which the write fails. *)
Lemma wap_append_restores_properties_witness :
  props_at (run (fail_at AtWrite "Py4JJavaError") (transform read_data) []).2
    "glue_catalog.athena_iceberg_test.my_iceberg_table"
  = Some (tblproperties (iceberg_table [])).
Proof.
  refine (wap_append_restores_properties
            (session (fail_at AtWrite "Py4JJavaError"))
            "glue_catalog" "athena_iceberg_test" "my_iceberg_table"
            (transform read_data) (world_of []) (iceberg_table [])
            (run (fail_at AtWrite "Py4JJavaError") (transform read_data) []).1
            _ _ _ _ _).
  - vm_compute. reflexivity.
  - vm_compute. reflexivity.
  - reflexivity.
  - vm_compute. reflexivity.
Defined.

(** ** The two identifiers *)

Lemma sql_set_tblproperty_sets E st tbl key value w w' :
  sql_set_tblproperty E st tbl key value w = (Returned tt, w') ->
  property E w' tbl key = Some value.
Proof. run_op. unfold property. simplify_map_eq. done. Qed.

(** Once the SET has returned, the rest of the call works on the table
    that [table_name] names, and on no other. *)
Lemma wap_try_after_set_frame E catalog_name database_name table_name data_df
    w w0 r1 w1 :
  sql_set_tblproperty E AtSetProperty
    (full_table_name_of catalog_name database_name table_name)
    wap_enabled_key "true" w = (Returned tt, w0) ->
  wap_try E catalog_name database_name table_name data_df w = (r1, w1) ->
  frame [resolve E table_name] (resolve E table_name)
        ["main"; next_branch_name E w "audit_branch"] w0 w1.
Proof.
  intros Hs Ht.
  unfold wap_try, wap_write, wap_branch_off, wap_audit, wap_publish,
    wap_dont_publish, bind, ret in Ht.
  rewrite Hs in Ht. cbv beta iota in Ht.
  repeat step_run Ht; name_from_start; by_frame.
Qed.

(** X10.  The SET names the table as [catalog.database.table_name], the
    cleanup as [table_name].  When the session resolves the two to
    different tables and the SET succeeds, the property is still set on the
    table the SET named when the call exits, whatever the outcome: the
    cleanup unsets it elsewhere. *)
Theorem wap_append_leaves_flag_on_other_table
    E catalog_name database_name table_name data_df w w0 r w' :
  resolve E (full_table_name_of catalog_name database_name table_name)
    <> resolve E table_name ->
  sql_set_tblproperty E AtSetProperty
    (full_table_name_of catalog_name database_name table_name)
    wap_enabled_key "true" w = (Returned tt, w0) ->
  wap_append E catalog_name database_name table_name data_df w = (r, w') ->
  property E w' (full_table_name_of catalog_name database_name table_name)
           wap_enabled_key = Some "true".
Proof.
  intros Hne Hs. rewrite wap_append_unfold.
  destruct (wap_try _ _ _ _ _ w) as [r1 w1] eqn:Ht.
  destruct (wap_cleanup E table_name w1) as [rc w2] eqn:Hc.
  intros H. assert (w' = w2) as -> by (destruct rc; congruence). clear H.
  pose proof (wap_try_after_set_frame _ _ _ _ _ _ _ _ _ Hs Ht) as (H1 & _).
  pose proof (wap_cleanup_frame E table_name [resolve E table_name]
                (resolve E table_name) [] w1 rc w2 ltac:(set_solver) Hc) as (H2 & _).
  apply sql_set_tblproperty_sets in Hs.
  unfold property in *. rewrite H2, H1 by set_solver. done.
Qed.

(** X10, witness: the call names the database [staging], and the session's
    current database is another one; both hold a table of that name. *)
Lemma wap_append_leaves_flag_on_other_table_witness :
  property (session no_fault)
    (wap_append (session no_fault) "glue_catalog" "staging" "my_iceberg_table"
       (transform read_data) world_two_databases).2
    (full_table_name_of "glue_catalog" "staging" "my_iceberg_table")
    wap_enabled_key = Some "true".
Proof.
  refine (wap_append_leaves_flag_on_other_table (session no_fault)
            "glue_catalog" "staging" "my_iceberg_table" (transform read_data)
            world_two_databases
            (sql_set_tblproperty (session no_fault) AtSetProperty
               (full_table_name_of "glue_catalog" "staging" "my_iceberg_table")
               wap_enabled_key "true" world_two_databases).2
            (wap_append (session no_fault) "glue_catalog" "staging"
               "my_iceberg_table" (transform read_data) world_two_databases).1
            _ _ _ _).
  - vm_compute. discriminate.
  - vm_compute. reflexivity.
  - vm_compute. reflexivity.
Defined.

(** ** Branch names *)

Lemma append_cons (c : Ascii.ascii) (s t : string) :
  String c s +:+ t = String c (s +:+ t).
Proof. reflexivity. Qed.

Lemma append_empty_l (t : string) : EmptyString +:+ t = t.
Proof. reflexivity. Qed.

Lemma append_inj_l (p a b : string) : p +:+ a = p +:+ b -> a = b.
Proof.
  induction p as [|c p IH]; [done|]. rewrite !append_cons. intros [= H]. auto.
Qed.

Lemma append_empty_r (s : string) : s +:+ EmptyString = s.
Proof. induction s as [|c s IH]; [done|]. by rewrite append_cons, IH. Qed.






(** ** The session configuration *)

Lemma set_all_cons k v settings conf :
  set_all ((k, v) :: settings) conf = set_all settings (<[k := v]> conf).
Proof. reflexivity. Qed.

Lemma set_all_other settings conf k :
  k ∉ settings.*1 -> set_all settings conf !! k = conf !! k.
Proof.
  revert conf. induction settings as [|[k' v'] l IH]; intros conf Hk; [done|].
  rewrite set_all_cons, IH by set_solver.
  apply lookup_insert_ne. set_solver.
Qed.

Lemma set_all_lookup settings conf k v :
  NoDup settings.*1 -> (k, v) ∈ settings -> set_all settings conf !! k = Some v.
Proof.
  revert conf. induction settings as [|[k' v'] l IH]; intros conf Hnd Hin.
  - by apply elem_of_nil in Hin.
  - rewrite set_all_cons. simpl in Hnd. apply NoDup_cons in Hnd as [Hk' Hnd].
    apply elem_of_cons in Hin as [[= -> ->]|Hin].
    + rewrite (set_all_other l _ k' Hk'). apply lookup_insert_eq.
    + by apply IH.
Qed.

Lemma conf_list_keys_distinct warehouse_bucket catalog_name :
  NoDup (conf_list warehouse_bucket catalog_name).*1.
Proof.
  unfold conf_list. simpl.
  repeat (apply NoDup_cons; split;
          [rewrite ?elem_of_cons, elem_of_nil; intros H; destruct_or!;
           try done;
           repeat (rewrite ?append_cons, ?append_empty_l in *; simplify_eq/=);
           repeat match goal with
                  | H : _ +:+ _ = _ +:+ _ |- _ => apply append_inj_l in H
                  | H : ?c = ?c +:+ _ |- _ =>
                      rewrite <- (append_empty_r c) in H at 1
                  | H : ?c +:+ _ = ?c |- _ =>
                      rewrite <- (append_empty_r c) in H at 3
                  end; done |]).
  apply NoDup_nil_2.
Qed.

(** X12.  For every bucket and catalog name, each of the nine settings of
    [create_iceberg_glue_session] takes effect: the keys are pairwise
    distinct, so none overwrites another, and the configuration maps each
    key of the list to its value; any other key keeps the value it had in
    the context's configuration. *)
Theorem create_iceberg_glue_session_settings
    warehouse_bucket catalog_name conf k v :
  (k, v) ∈ conf_list warehouse_bucket catalog_name ->
  create_iceberg_glue_session warehouse_bucket catalog_name conf !! k = Some v /\
  forall k', k' ∉ (conf_list warehouse_bucket catalog_name).*1 ->
    create_iceberg_glue_session warehouse_bucket catalog_name conf !! k' = conf !! k'.
Proof.
  intros Hin. split.
  - apply set_all_lookup; [apply conf_list_keys_distinct | done].
  - intros k' Hk'. by apply set_all_other.
Qed.

(** X12, witness: the warehouse of [main]'s session. *)
Lemma create_iceberg_glue_session_settings_witness :
  create_iceberg_glue_session "my-iceberg-warehouse" "glue_catalog" ∅
    !! "spark.sql.catalog.glue_catalog.warehouse"
  = Some "s3://my-iceberg-warehouse/glue_catalog/".
Proof.
  refine (proj1 (create_iceberg_glue_session_settings
                   "my-iceberg-warehouse" "glue_catalog" ∅
                   "spark.sql.catalog.glue_catalog.warehouse"
                   "s3://my-iceberg-warehouse/glue_catalog/" _)).
  apply (bool_decide_unpack _). vm_compute. exact I.
Defined.

(** ** The transformation *)

(** X13.  [transform] keeps exactly the rows whose age is over 25, in the
    order of the input: every row it returns is such a row of the input,
    every such row of the input is returned, and the result is a sublist of
    the input. *)
Theorem transform_keeps_over_25 (df : list Row) :
  (forall r, r ∈ transform df <-> r ∈ df /\ 25 < age r) /\
  sublist (transform df) df.
Proof.
  unfold transform. split.
  - intros r. rewrite !list_elem_of_In, List.filter_In, Z.ltb_lt. done.
  - induction df as [|r df IH]; simpl; [done|].
    destruct (25 <? age r); by constructor.
Qed.

(** ** The order of the protocol *)

(** X14.  A call that returns has sent the operations of the protocol in
    source order, each once: SET, the listing of refs, DROP BRANCH IF
    EXISTS, CREATE BRANCH, the append, the load and two counts; then, only
    when the audit passed, the fast-forward of [main] and DROP BRANCH; and
    last the UNSET.  It has drawn one UUID. *)
Theorem wap_append_protocol
    E catalog_name database_name table_name data_df w a w' :
  wap_append E catalog_name database_name table_name data_df w = (Returned a, w') ->
  exists w1 passed w2,
    wap_write E catalog_name database_name table_name data_df w
      = (Returned (next_branch_name E w "audit_branch"), w1) /\
    wap_audit E table_name data_df (next_branch_name E w "audit_branch") w1
      = (Returned passed, w2) /\
    issued w' = issued w ++
      (if passed
       then try_ops catalog_name database_name table_name data_df
                    (next_branch_name E w "audit_branch")
       else take 8 (try_ops catalog_name database_name table_name data_df
                            (next_branch_name E w "audit_branch"))) ++
      [SqlUnsetTblProperty table_name wap_enabled_key] /\
    uuids_drawn w' = S (uuids_drawn w).
Proof.
  rewrite wap_append_unfold. unfold wap_try, bind.
  destruct (wap_write _ _ _ _ _ w) as [[b|e] w1] eqn:Hw; cbv beta iota;
    [|destruct (wap_cleanup E table_name w1) as [[|] ?]; discriminate].
  destruct (wap_audit _ _ _ b w1) as [[passed|e] w2] eqn:Ha; cbv beta iota;
    [|destruct (wap_cleanup E table_name w2) as [[|] ?]; discriminate].
  destruct (if passed then _ else _) as [[[]|e] w3] eqn:Hp;
    destruct (wap_cleanup E table_name w3) as [[[]|e'] w4] eqn:Hc;
    intros H; simplify_eq.
  pose proof (wap_write_returned _ _ _ _ _ _ _ _ Hw)
    as (-> & [names (Hi1 & _ & Hu1)] & _).
  pose proof (wap_audit_returned _ _ _ _ _ _ _ Ha) as (_ & (Hi2 & _ & Hu2) & _).
  apply sql_unset_tblproperty_delta in Hc as (Hi4 & _ & Hu4).
  exists w1, passed, w2. split_and!; [done | done | |].
  - rewrite Hi4. destruct passed.
    + apply wap_publish_returned in Hp as ((Hi3 & _ & _) & _).
      rewrite Hi3, Hi2, Hi1. simpl. by rewrite <- !app_assoc.
    + apply print_delta in Hp as (_ & (Hi3 & _ & _) & _).
      rewrite Hi3, Hi2, Hi1. simpl. by rewrite app_nil_r, <- !app_assoc.
  - rewrite Hu4. destruct passed.
    + apply wap_publish_returned in Hp as ((_ & _ & Hu3) & _).
      rewrite Hu3, Hu2, Hu1. done.
    + apply print_delta in Hp as (_ & (_ & _ & Hu3) & _).
      rewrite Hu3, Hu2, Hu1. done.
Qed.

(** X14, witness: the published run of [main]'s payload. *)
Lemma wap_append_protocol_witness :
  let E := session no_fault in
  let b := next_branch_name E (world_of []) "audit_branch" in
  exists w1 passed w2,
    wap_write E "glue_catalog" "athena_iceberg_test" "my_iceberg_table"
      (transform read_data) (world_of []) = (Returned b, w1) /\
    wap_audit E "my_iceberg_table" (transform read_data) b w1
      = (Returned passed, w2) /\
    issued (run no_fault (transform read_data) []).2 = issued (world_of []) ++
      (if passed
       then try_ops "glue_catalog" "athena_iceberg_test" "my_iceberg_table"
                    (transform read_data) b
       else take 8 (try_ops "glue_catalog" "athena_iceberg_test" "my_iceberg_table"
                            (transform read_data) b)) ++
      [SqlUnsetTblProperty "my_iceberg_table" wap_enabled_key] /\
    uuids_drawn (run no_fault (transform read_data) []).2
      = S (uuids_drawn (world_of [])).
Proof.
  refine (wap_append_protocol (session no_fault)
            "glue_catalog" "athena_iceberg_test" "my_iceberg_table"
            (transform read_data) (world_of []) tt _ _).
  vm_compute. reflexivity.
Defined.
